(** * The "create sighting" workflow action of TA-eclecticiq

    A shallow embedding of [bin/create_sighting.py]: the class [Send] with its
    static methods [parse_form_data], [send_request], [create_response],
    [get_url], [get_proxy] and [handle], followed by the properties of the
    handler that the specification states.

    Python values are embedded as follows.
    - flat dictionaries with string keys (the parsed form, a stanza of a
      configuration file, request headers) are [gmap string _];
    - a parsed configuration file is the list of its stanzas in file order,
      because [get_url] depends on the order of iteration;
    - the sighting document is a JSON tree whose objects keep insertion order;
    - the module-level dictionary [SIGHTING_SCHEMA] is a cell of the world that
      [handle] threads, and the local name [sighting] is a reference to it;
    - an exception is a value of [exn]; code that can raise lives in the
      monad [M], which keeps the world reached when the exception was raised. *)

From Stdlib Require Import ZArith String Ascii List Bool Lia DecimalString.
From stdpp Require Import gmap strings list fin_maps.

Set Warnings "-register-all".
Local Open Scope Z_scope.
Local Open Scope string_scope.

(** ** Exceptions and results *)

(** The exception classes that the handler can meet.  [RequestException]
    stands for the instances of [requests.exceptions.RequestException] that
    are none of [HTTPError], [ConnectionError] and [Timeout] (for instance
    [InvalidURL] or [TooManyRedirects]). *)
Inductive exn : Type :=
| KeyError (key : string)
| UnboundLocalError (name : string)
| AttributeError (attribute : string)
| TypeError (what : string)
| JSONDecodeError
| HTTPError (code : Z)
| ConnectionError
| Timeout
| RequestException
| OtherException (what : string).

Inductive result (A : Type) : Type :=
| Ok (a : A)
| Raise (e : exn).
Arguments Ok {A} a.
Arguments Raise {A} e.

(** ** JSON values and Python dictionaries that keep their order *)

Inductive json : Type :=
| JNull
| JBool (b : bool)
| JNum (z : Z)
| JStr (s : string)
| JArr (items : list json)
| JObj (members : list (string * json)).

(** [d.get(k)] on an ordered dictionary. *)
Fixpoint obj_get (k : string) (d : list (string * json)) : option json :=
  match d with
  | [] => None
  | (k', v) :: rest => if String.eqb k k' then Some v else obj_get k rest
  end.

(** [d[k] = v]: an existing key keeps its position, a new key goes last. *)
Fixpoint obj_set (k : string) (v : json) (d : list (string * json))
  : list (string * json) :=
  match d with
  | [] => [(k, v)]
  | (k', v') :: rest =>
      if String.eqb k k' then (k', v) :: rest else (k', v') :: obj_set k v rest
  end.

(** [root[p1]...[pn]]: every step is a subscription of a dictionary. *)
Fixpoint getitem_path (path : list string) (root : json) : result json :=
  match path with
  | [] => Ok root
  | k :: path' =>
      match root with
      | JObj d =>
          match obj_get k d with
          | Some child => getitem_path path' child
          | None => Raise (KeyError k)
          end
      | _ => Raise (TypeError "subscript")
      end
  end.

(** [root[p1]...[pn][key] = v], as the new value of [root]: the inner
    dictionaries are reached by subscription and the last one is updated in
    place, so the change is visible from the root. *)
Fixpoint setitem_path (path : list string) (key : string) (v : json)
                      (root : json) : result json :=
  match path with
  | [] =>
      match root with
      | JObj d => Ok (JObj (obj_set key v d))
      | _ => Raise (TypeError "item assignment")
      end
  | k :: path' =>
      match root with
      | JObj d =>
          match obj_get k d with
          | Some child =>
              match setitem_path path' key v child with
              | Ok child' => Ok (JObj (obj_set k child' d))
              | Raise e => Raise e
              end
          | None => Raise (KeyError k)
          end
      | _ => Raise (TypeError "subscript")
      end
  end.

(** ** Strings as Python uses them here *)

(** [str(n)] for an integer. *)
Definition py_str_int (n : Z) : string := NilZero.string_of_int (Z.to_int n).

(** [s.startswith(p)]. *)
Definition startswith (s p : string) : bool := String.prefix p s.

(** The hexadecimal digit of a number below 16, in lower case. *)
Definition hex_digit (n : nat) : ascii :=
  match String.get n "0123456789abcdef" with
  | Some c => c
  | None => "0"%char
  end.

(** One byte in the [repr] of a bytes object: the quote and the backslash
    are escaped, tab, newline and carriage return are written with their
    letters, and a byte outside the printable ASCII range as [\xhh]. *)
Definition py_bytes_escape (quote c : ascii) : string :=
  let n := nat_of_ascii c in
  if Ascii.eqb c quote || Ascii.eqb c "\"%char then String "\" (String c "")
  else if (n =? 9)%nat then "\t"
  else if (n =? 10)%nat then "\n"
  else if (n =? 13)%nat then "\r"
  else if ((n <? 32) || (127 <=? n))%nat then
    String "\" (String "x" (String (hex_digit (n / 16))
                              (String (hex_digit (n mod 16)) "")))
  else String c "".

(** [str(b)] for a bytes object [b], which is its [repr]: the letter b and
    the escaped bytes between quotes; the quote is the single one, unless
    the bytes hold a single quote and no double quote. *)
Definition py_str_bytes (b : string) : string :=
  let bytes := list_ascii_of_string b in
  let single := "'"%char in
  let double := ascii_of_nat 34 in
  let quote :=
    if existsb (Ascii.eqb single) bytes && negb (existsb (Ascii.eqb double) bytes)
    then double else single in
  String "b" (String quote
    (String.concat "" (map (py_bytes_escape quote) bytes) ++ String quote "")).

(** [list(s)]: the characters of [s], each a string of length one. *)
Fixpoint py_list (s : string) : list string :=
  match s with
  | EmptyString => []
  | String c rest => String c EmptyString :: py_list rest
  end.

(** [sep.join(parts)]. *)
Fixpoint py_join (sep : string) (parts : list string) : string :=
  match parts with
  | [] => ""
  | [p] => p
  | p :: rest => p ++ sep ++ py_join sep rest
  end.

(** Truth value of a string that may be [None]: [None] and [""] are false. *)
Definition truthy (o : option string) : bool :=
  match o with
  | None => false
  | Some s => negb (String.eqb s "")
  end.

(** ** Dates, times and [strftime] *)

Record datetime : Type := mk_datetime {
  year : Z; month : Z; day : Z;
  hour : Z; minute : Z; second : Z; microsecond : Z
}.

Record date : Type := mk_date { d_year : Z; d_month : Z; d_day : Z }.

(** [t.date()]. *)
Definition date_of (t : datetime) : date :=
  {| d_year := year t; d_month := month t; d_day := day t |}.

(** [datetime.datetime(y, m, d, 0, 0, 0)]: the microsecond defaults to 0. *)
Definition datetime_ymd000 (y m d : Z) : datetime :=
  mk_datetime y m d 0 0 0 0.

(** The decimal digits of [n], padded with zeros on the left to [width]. *)
Definition zero_pad (width : nat) (n : Z) : string :=
  let digits := py_str_int n in
  String.concat "" (repeat "0" (width - String.length digits)) ++ digits.

(** One conversion of [strftime]: the numeric conversions that a timestamp
    uses, as the C library renders them for the instants that [utcnow]
    returns (a year of four digits).  The other conversions of the C library
    are not rendered: a character that is none of these is left as it stands
    after its percent sign. *)
Definition strftime_directive (t : datetime) (c : ascii) : string :=
  if Ascii.eqb c "Y" then zero_pad 4 (year t)
  else if Ascii.eqb c "m" then zero_pad 2 (month t)
  else if Ascii.eqb c "d" then zero_pad 2 (day t)
  else if Ascii.eqb c "H" then zero_pad 2 (hour t)
  else if Ascii.eqb c "M" then zero_pad 2 (minute t)
  else if Ascii.eqb c "S" then zero_pad 2 (second t)
  else if Ascii.eqb c "f" then zero_pad 6 (microsecond t)
  else if Ascii.eqb c "%" then "%"
  else String "%" (String c "").

(** [datetime.datetime.strftime(t, fmt)]. *)
Fixpoint strftime (t : datetime) (fmt : string) : string :=
  match fmt with
  | EmptyString => ""
  | String c rest =>
      if Ascii.eqb c "%" then
        match rest with
        | EmptyString => "%"
        | String c' rest' => strftime_directive t c' ++ strftime t rest'
        end
      else String c (strftime t rest)
  end.

(** ** Constants

    The packages [constants] and [utils] are imported by the handler but are
    not part of the file that is verified.  The handler only relies on the
    keys of one dictionary being pairwise different; the spellings below
    follow the names the specification uses for the same things. *)

(** Modelled from the spec: the keys of the form ([constants.general],
    [constants.sighting_right_click]): "sighting value, description,
    confidence level, title, tags, sighting type, an API credential, and an
    optional proxy password". *)
Definition CREDS : string := "creds".
Definition SIGHTING_VALUE : string := "sighting_value".
Definition SIGHTING_DESC : string := "sighting_desc".
Definition CONFIDENCE_LEVEL : string := "confidence_level".
Definition SIGHTING_TITLE : string := "sighting_title".
Definition SIGHTING_TAGS : string := "sighting_tags".
Definition SIGHTING_TYPE : string := "sighting_type".

(** Modelled from the spec: the keys of the sighting document
    ([constants.sighting_right_click]): a data section with value,
    description, timestamp, confidence, title and a security control with a
    type and a time whose start time is the observation-window start, and a
    metadata section with tags and ingest time. *)
Definition DATA_STR : string := "data".
Definition META : string := "meta".
Definition VALUE : string := "value".
Definition DESCRIPTION : string := "description".
Definition TIMESTAMP_STR : string := "timestamp".
Definition CONFIDENCE : string := "confidence".
Definition TITLE : string := "title".
Definition SECURITY_CONTROL : string := "security_control".
Definition TYPE : string := "type".
Definition TIME : string := "time".
Definition START_TIME : string := "start_time".
Definition TAGS : string := "tags".
Definition INGEST_TIME : string := "ingest_time".

(** Modelled from the spec: the time format of [constants.sighting_right_click],
    "[YYYY-MM-DDTHH:MM:SS.ffffffZ]-style". *)
Definition TIME_FORMAT : string := "%Y-%m-%dT%H:%M:%S.%fZ".

(** Modelled from the spec: the names of [constants.general] for the
    configuration files (the section named "proxy", the URL field of an
    account, the per-request proxy password) and for the authorization
    header. *)
Definition PROXY : string := "proxy".
Definition PROXY_PASSWORD : string := "proxy_password".
Definition URL : string := "url".
Definition AUTHORIZATION : string := "Authorization".

(** Modelled from the spec: the response headers
    [{"Content-Type": "text/plain"}] ([constants.sighting_right_click]). *)
Definition CONTENT_TYPE : string := "Content-Type".
Definition TEXT_PLAIN : string := "text/plain".

(** Modelled from the spec: the messages of [constants.messages] that reach
    the caller: "credentials not found", the generic "could not create
    sighting". *)
Definition CREDS_NOT_FOUND : string := "Credentials not found.".
Definition COULD_NOT_CREATE_SIGHTING : string := "Could not create sighting.".

(** Modelled from the spec: the template [SIGHTING_CREATED] of
    [constants.messages], applied to its two arguments by [str.format]:
    "Sighting created: <url>/<id>". *)
Definition SIGHTING_CREATED_format (url id : string) : string :=
  "Sighting created: " ++ url ++ "/" ++ id.

(** Modelled from the spec: the dictionary [SIGHTING_SCHEMA] of
    [constants.sighting_right_click] as the module is loaded, a fixed-shape
    nested record with the fields listed above, none of them filled. *)
Definition SIGHTING_SCHEMA_loaded : json :=
  JObj [(DATA_STR, JObj [
    (DATA_STR, JObj [
       (VALUE, JStr "");
       (DESCRIPTION, JStr "");
       (TIMESTAMP_STR, JStr "");
       (CONFIDENCE, JStr "");
       (TITLE, JStr "");
       (SECURITY_CONTROL, JObj [
          (TYPE, JStr "");
          (TIME, JObj [(START_TIME, JStr "")])])]);
    (META, JObj [
       (TAGS, JArr []);
       (INGEST_TIME, JStr "")])])].

(** ** The world of the handler *)

(** A call of [requests.request], by its keyword arguments. *)
Record HttpRequest : Type := mk_HttpRequest {
  req_method : string;
  req_url : string;
  req_headers : gmap string string;
  req_data : string;
  req_verify : bool;
  req_timeout : Z;
  req_proxies : option (gmap string string)
}.

(** What the handler reads of a [requests.Response]: the status, and the
    body, which is a bytes object, as the string of its bytes. *)
Record HttpResponse : Type := mk_HttpResponse {
  status_code : Z;
  content : string
}.

(** The outcome of a call of [requests.request]: a response with any status,
    or an exception raised before a response is there. *)
Inductive Wire : Type :=
| Responds (r : HttpResponse)
| Fails (e : exn).

Inductive Level : Type := INFO | ERROR | CRITICAL.

(** The records written to the log, by the message template applied
    ([constants.messages]) and its arguments; the error of
    [EVENTS_RESPONSE_ERROR_CODE] is [str(response.content)]. *)
Inductive LogMsg : Type :=
| REQUEST_RECEIVED
| API_ERROR (err : exn)
| EVENTS_RESPONSE_ERROR_CODE (code : Z) (error : string)
| TRACEBACK (err : exn)
| REQUEST_FAILED
| MESSAGE (text : string).

(** A parsed configuration file ([cli.readConfFile]): its stanzas in the
    order of iteration, each a dictionary of fields. *)
Definition ConfFile : Type := list (string * gmap string string).

(** What a call of the handler finds around it: the two configuration files
    ([None] when [os.path.exists] is false), the clock by the number of calls
    of [utcnow] made before, and the remote service. *)
Record Env : Type := mk_Env {
  accounts_conf : option ConfFile;
  settings_conf : option ConfFile;
  clock : nat -> datetime;
  remote : HttpRequest -> Wire
}.

(** What persists in the process from one call of the handler to the next
    (the application is a persistent server connection): the module-level
    dictionary [SIGHTING_SCHEMA], and, as a trace, the readings of the clock,
    the calls of [requests.request] and the log. *)
Record World : Type := mk_World {
  SIGHTING_SCHEMA : json;
  utcnow_calls : nat;
  outbound : list HttpRequest;
  log_records : list (Level * LogMsg)
}.

Definition World_loaded : World :=
  mk_World SIGHTING_SCHEMA_loaded 0 [] [].

(** The functions of the Python library and of [utils.formatters] that the
    handler calls and whose results it only passes on. *)
Class Platform : Type := {
  json_dumps : json -> string;
  json_loads : string -> option json;
  py_repr : json -> string;
  format_proxy_uri : gmap string string -> result (gmap string string)
}.

(** ** The monad of the handler: a world, and a result or an exception *)

Definition M (A : Type) : Type := World -> result A * World.

Definition ret {A : Type} (a : A) : M A := fun w => (Ok a, w).

Definition raise {A : Type} (e : exn) : M A := fun w => (Raise e, w).

Definition bind {A B : Type} (m : M A) (k : A -> M B) : M B :=
  fun w =>
    match m w with
    | (Ok a, w') => k a w'
    | (Raise e, w') => (Raise e, w')
    end.

Definition lift {A : Type} (r : result A) : M A := fun w => (r, w).

(** [try: m  except Exception as err: h err]. *)
Definition try_except {A : Type} (m : M A) (h : exn -> M A) : M A :=
  fun w =>
    match m w with
    | (Ok a, w') => (Ok a, w')
    | (Raise e, w') => h e w'
    end.

Notation "'let*' x ':=' m 'in' k" := (bind m (fun x => k))
  (at level 10, x name, m at level 100, k at level 200).
Notation "m '>>' k" := (bind m (fun _ => k))
  (at level 100, k at level 200, right associativity).

(** [logger.info], [logger.error], [logger.critical]. *)
Definition logger (lvl : Level) (msg : LogMsg) : M unit :=
  fun w =>
    (Ok tt, mk_World (SIGHTING_SCHEMA w) (utcnow_calls w) (outbound w)
                     (log_records w ++ [(lvl, msg)])).

(** ** The class [Send] *)

(** The request envelope after [json.loads]: its [form] is the ordered list
    of the [[key, value]] pairs submitted. *)
Record InDict : Type := mk_InDict {
  form : list (string * string)
}.

(** What [create_response] is given as message: a text, or the exception
    caught. *)
Inductive Payload : Type :=
| Text (message : string)
| Error (err : exn).

(** The dictionary that [create_response] returns, by its three keys
    [PAYLOAD], [STATUS_STR] and [HEADERS]. *)
Record Response : Type := mk_Response {
  PAYLOAD : Payload;
  STATUS_STR : Z;
  HEADERS : gmap string string
}.

(** The one object that the handler holds by reference. *)
Inductive Ref : Type := REF_SIGHTING_SCHEMA.

Definition set_SIGHTING_SCHEMA (doc : json) (w : World) : World :=
  mk_World doc (utcnow_calls w) (outbound w) (log_records w).

(** Reading the dictionary behind a reference. *)
Definition deref (r : Ref) : M json :=
  fun w => match r with REF_SIGHTING_SCHEMA => (Ok (SIGHTING_SCHEMA w), w) end.

(** [r[p1]...[pn][key] = v] on the dictionary behind a reference. *)
Definition assign (r : Ref) (path : list string) (key : string) (v : json)
  : M unit :=
  fun w =>
    match r with
    | REF_SIGHTING_SCHEMA =>
        match setitem_path path key v (SIGHTING_SCHEMA w) with
        | Ok doc => (Ok tt, set_SIGHTING_SCHEMA doc w)
        | Raise e => (Raise e, w)
        end
    end.

(** [d[k]] on a flat dictionary. *)
Definition getitem (d : gmap string string) (k : string) : M string :=
  match d !! k with
  | Some v => ret v
  | None => raise (KeyError k)
  end.

(** A local variable that is read: unbound when never assigned. *)
Definition local {A : Type} (name : string) (v : option A) : M A :=
  match v with
  | Some a => ret a
  | None => raise (UnboundLocalError name)
  end.

(** How an f-string or [str.format] renders a value that may be [None]. *)
Definition py_str_opt (o : option string) : string :=
  match o with
  | Some s => s
  | None => "None"
  end.

(** [Send.parse_form_data]: a later pair wins over an earlier one with the
    same key. *)
Definition parse_form_data (form_data : list (string * string))
  : gmap string string :=
  foldl (fun parsed '(key, value) => <[key := value]> parsed) ∅ form_data.

(** [Send.create_response]. *)
Definition create_response (status : Z) (message : Payload) : Response :=
  {| PAYLOAD := message;
     STATUS_STR := status;
     HEADERS := {[ CONTENT_TYPE := TEXT_PLAIN ]} |}.

(** One turn of the loop of [get_url] over [localconf.items()], on the pair
    of the local variables [account_name] (unbound at first) and
    [apikeyconf]. *)
Definition get_url_step
    (vars : option string * gmap string (gmap string string))
    (item : string * gmap string string)
  : option string * gmap string (gmap string string) :=
  let '(account_name, apikeyconf) := vars in
  let '(name, content) := item in
  let account_name :=
    if negb (String.eqb name "default") then Some name else account_name in
  let apikeyconf :=
    match apikeyconf !! name with
    | Some fields => <[name := content ∪ fields]> apikeyconf
    | None => <[name := content]> apikeyconf
    end in
  (account_name, apikeyconf).

(** [Send.get_url], on the state of the file at [api_conf_path]. *)
Definition get_url (api_conf : option ConfFile) : result (option string) :=
  match api_conf with
  | Some localconf =>
      let '(account_name, apikeyconf) :=
        foldl get_url_step (None, ∅) localconf in
      match account_name with
      | None => Raise (UnboundLocalError "account_name")
      | Some name =>
          match apikeyconf !! name with
          | None => Raise (KeyError name)
          | Some fields =>
              match fields !! URL with
              | None => Raise (KeyError URL)
              | Some url => Ok (Some url)
              end
          end
      end
  | None => Ok None
  end.

(** The loop of [get_proxy] over [localsettingsconf.items()]: the first
    stanza named [PROXY] is returned. *)
Fixpoint get_proxy_loop (items : ConfFile) : option (gmap string string) :=
  match items with
  | [] => None
  | (stanza, fields) :: rest =>
      if String.eqb stanza PROXY then Some fields else get_proxy_loop rest
  end.

(** [Send.get_proxy], on the state of the file at [settings_conf_path]. *)
Definition get_proxy (settings_conf : option ConfFile)
  : result (option (gmap string string)) :=
  match settings_conf with
  | Some localsettingsconf => Ok (get_proxy_loop localsettingsconf)
  | None => Ok None
  end.

(** [Response.raise_for_status] of the library [requests]: a status from 400
    to 599 raises [HTTPError]. *)
Definition raise_for_status (response : HttpResponse) : result unit :=
  if ((400 <=? status_code response) && (status_code response <? 600))%Z
  then Raise (HTTPError (status_code response))
  else Ok tt.

Section Handler.

Context {platform : Platform}.
Variable env : Env.

(** [datetime.datetime.utcnow()]. *)
Definition utcnow : M datetime :=
  fun w =>
    (Ok (clock env (utcnow_calls w)),
     mk_World (SIGHTING_SCHEMA w) (S (utcnow_calls w)) (outbound w)
              (log_records w)).

(** [requests.request(...)]: the call is recorded, and the remote service
    decides its outcome. *)
Definition requests_request (request : HttpRequest) : M HttpResponse :=
  fun w =>
    let w' := mk_World (SIGHTING_SCHEMA w) (utcnow_calls w)
                       (outbound w ++ [request]) (log_records w) in
    match remote env request with
    | Responds response => (Ok response, w')
    | Fails err => (Raise err, w')
    end.

(** The [except] clauses of [send_request], in their order; [response] is
    the local variable, unbound when [requests.request] itself raised. *)
Definition send_request_except (response : option HttpResponse) (err : exn)
  : M HttpResponse :=
  match err with
  | HTTPError _ =>
      let* r := local "response" response in
      if startswith (py_str_int (status_code r)) "5" then
        logger CRITICAL (API_ERROR err) >>
        logger CRITICAL (EVENTS_RESPONSE_ERROR_CODE (status_code r)
                                         (py_str_bytes (content r))) >>
        raise err
      else
        logger ERROR (API_ERROR err) >>
        logger ERROR (EVENTS_RESPONSE_ERROR_CODE (status_code r)
                                         (py_str_bytes (content r))) >>
        raise err
  | ConnectionError =>
      logger ERROR (API_ERROR err) >> raise err
  | Timeout =>
      logger ERROR (API_ERROR err) >> raise err
  | RequestException =>
      logger ERROR (API_ERROR err) >>
      let* r := local "response" response in
      logger ERROR (EVENTS_RESPONSE_ERROR_CODE (status_code r)
                                         (py_str_bytes (content r))) >>
      raise err
  | _ =>
      logger ERROR (TRACEBACK err) >> raise err
  end.

(** [Send.send_request].  [proxy] is [None] when [get_proxy] returned
    [None]; [proxy.get] then raises before the [try]. *)
Definition send_request (url : string) (headers : gmap string string)
    (proxy : option (gmap string string)) (sighting : Ref)
  : M HttpResponse :=
  let* proxy_settings :=
    match proxy with
    | None => raise (AttributeError "get")
    | Some fields =>
        if bool_decide (fields !! "proxy_enabled" = Some "1")
        then let* uri := lift (format_proxy_uri fields) in ret (Some uri)
        else ret None
    end in
  let* document := deref sighting in
  let request :=
    {| req_method := "post";
       req_url := url;
       req_headers := headers;
       req_data := json_dumps document;
       req_verify := true;
       req_timeout := 50;
       req_proxies := proxy_settings |} in
  fun w =>
    match requests_request request w with
    | (Ok response, w') =>
        match raise_for_status response with
        | Ok _ => (Ok response, w')
        | Raise err => send_request_except (Some response) err w'
        end
    | (Raise err, w') => send_request_except None err w'
    end.

(** How [str.format] renders the identifier found in the reply. *)
Definition format_arg (v : json) : string :=
  match v with
  | JStr s => s
  | _ => py_repr v
  end.

(** Lines 268 to 287 of [Send.handle]: the nine fields of the dictionary
    behind [sighting] are assigned, each right-hand side being evaluated
    before its assignment. *)
Definition handle_fill (payload : gmap string string) (today : date)
    (time : datetime) (sighting : Ref) : M unit :=
  let* value := getitem payload SIGHTING_VALUE in
  assign sighting [DATA_STR; DATA_STR] VALUE (JStr value) >>
  let* description := getitem payload SIGHTING_DESC in
  assign sighting [DATA_STR; DATA_STR] DESCRIPTION (JStr description) >>
  assign sighting [DATA_STR; DATA_STR] TIMESTAMP_STR
         (JStr (strftime time TIME_FORMAT)) >>
  let* confidence := getitem payload CONFIDENCE_LEVEL in
  assign sighting [DATA_STR; DATA_STR] CONFIDENCE (JStr confidence) >>
  let* title := getitem payload SIGHTING_TITLE in
  assign sighting [DATA_STR; DATA_STR] TITLE (JStr title) >>
  let* tags := getitem payload SIGHTING_TAGS in
  assign sighting [DATA_STR; META] TAGS
         (JArr [JStr (py_join "" (py_list tags))]) >>
  let* type := getitem payload SIGHTING_TYPE in
  assign sighting [DATA_STR; DATA_STR; SECURITY_CONTROL] TYPE (JStr type) >>
  assign sighting [DATA_STR; DATA_STR; SECURITY_CONTROL; TIME] START_TIME
         (JStr (strftime
                  (datetime_ymd000 (d_year today) (d_month today) (d_day today))
                  TIME_FORMAT)) >>
  assign sighting [DATA_STR; META] INGEST_TIME
         (JStr (strftime time TIME_FORMAT)).

(** Lines 288 to 301 of [Send.handle]: the request is sent inside the only
    [try] of the handler, and the reply is turned into the response. *)
Definition handle_submit (url : option string) (api_key : option string)
    (settingsconf_PROXY : option (gmap string string)) (sighting : Ref)
  : M Response :=
  let headers : gmap string string :=
    {[ AUTHORIZATION := "Bearer " ++ py_str_opt api_key ]} in
  let* sent :=
    try_except
      (let* target :=
         match url with
         | Some base => ret (base ++ "/entities")
         | None => raise (TypeError "+")
         end in
       let* response :=
         send_request target headers settingsconf_PROXY sighting in
       ret (inl response))
      (fun err => ret (inr (create_response 500 (Error err)))) in
  match sent with
  | inr failure => ret failure
  | inl response =>
      if negb (startswith (py_str_int (status_code response)) "2") then
        logger INFO REQUEST_FAILED >>
        ret (create_response (status_code response)
                             (Text COULD_NOT_CREATE_SIGHTING))
      else
        let* content :=
          match json_loads (content response) with
          | Some parsed => ret parsed
          | None => raise JSONDecodeError
          end in
        let* id := lift (getitem_path [DATA_STR; "id"] content) in
        let message :=
          SIGHTING_CREATED_format (py_str_opt url) (format_arg id) in
        logger INFO (MESSAGE message) >>
        ret (create_response (status_code response) (Text message))
  end.

(** [Send.handle], from the envelope that [json.loads] returned: lines 250
    to 267, then the two blocks above. *)
Definition handle (in_dict : InDict) : M Response :=
  logger INFO REQUEST_RECEIVED >>
  let* url := lift (get_url (accounts_conf env)) in
  let* settingsconf_PROXY := lift (get_proxy (settings_conf env)) in
  let payload := parse_form_data (form in_dict) in
  let* today := (let* now := utcnow in ret (date_of now)) in
  let sighting := REF_SIGHTING_SCHEMA in
  let* time := utcnow in
  let api_key := payload !! CREDS in
  if negb (truthy api_key) then
    ret (create_response 401 (Text CREDS_NOT_FOUND))
  else
  let proxy_pass :=
    if truthy (payload !! "proxy_pass")
    then py_str_opt (payload !! "proxy_pass") else "" in
  let settingsconf_PROXY :=
    match settingsconf_PROXY with
    | Some fields =>
        if bool_decide (fields = ∅) then Some fields
        else Some (<[PROXY_PASSWORD := proxy_pass]> fields)
    | None => None
    end in
  handle_fill payload today time sighting >>
  handle_submit url api_key settingsconf_PROXY sighting.

End Handler.

(** * The vocabulary of the properties *)

Section Vocabulary.

Context {platform : Platform}.
Variable env : Env.

(** The nine fields that the handler assigns. *)
Record Slots : Type := mk_Slots {
  slot_value : json;
  slot_description : json;
  slot_timestamp : json;
  slot_confidence : json;
  slot_title : json;
  slot_type : json;
  slot_start_time : json;
  slot_tags : json;
  slot_ingest_time : json
}.

(** The nine fields by name. *)
Inductive slot : Type :=
| Value | Description | Timestamp | Confidence | Title
| SecurityType | StartTime | Tags | IngestTime.

(** Where the handler assigns a field: the dictionaries it subscribes, and
    the key it assigns in the last of them. *)
Definition slot_path (f : slot) : list string :=
  match f with
  | Value | Description | Timestamp | Confidence | Title =>
      [DATA_STR; DATA_STR]
  | SecurityType => [DATA_STR; DATA_STR; SECURITY_CONTROL]
  | StartTime => [DATA_STR; DATA_STR; SECURITY_CONTROL; TIME]
  | Tags | IngestTime => [DATA_STR; META]
  end.

Definition slot_key (f : slot) : string :=
  match f with
  | Value => VALUE
  | Description => DESCRIPTION
  | Timestamp => TIMESTAMP_STR
  | Confidence => CONFIDENCE
  | Title => TITLE
  | SecurityType => TYPE
  | StartTime => START_TIME
  | Tags => TAGS
  | IngestTime => INGEST_TIME
  end.

Definition get_slot (f : slot) (s : Slots) : json :=
  match f with
  | Value => slot_value s
  | Description => slot_description s
  | Timestamp => slot_timestamp s
  | Confidence => slot_confidence s
  | Title => slot_title s
  | SecurityType => slot_type s
  | StartTime => slot_start_time s
  | Tags => slot_tags s
  | IngestTime => slot_ingest_time s
  end.

Definition set_slot (f : slot) (v : json) (s : Slots) : Slots :=
  match f with
  | Value =>
      mk_Slots v (slot_description s) (slot_timestamp s) (slot_confidence s)
               (slot_title s) (slot_type s) (slot_start_time s) (slot_tags s)
               (slot_ingest_time s)
  | Description =>
      mk_Slots (slot_value s) v (slot_timestamp s) (slot_confidence s)
               (slot_title s) (slot_type s) (slot_start_time s) (slot_tags s)
               (slot_ingest_time s)
  | Timestamp =>
      mk_Slots (slot_value s) (slot_description s) v (slot_confidence s)
               (slot_title s) (slot_type s) (slot_start_time s) (slot_tags s)
               (slot_ingest_time s)
  | Confidence =>
      mk_Slots (slot_value s) (slot_description s) (slot_timestamp s) v
               (slot_title s) (slot_type s) (slot_start_time s) (slot_tags s)
               (slot_ingest_time s)
  | Title =>
      mk_Slots (slot_value s) (slot_description s) (slot_timestamp s)
               (slot_confidence s) v (slot_type s) (slot_start_time s)
               (slot_tags s) (slot_ingest_time s)
  | SecurityType =>
      mk_Slots (slot_value s) (slot_description s) (slot_timestamp s)
               (slot_confidence s) (slot_title s) v (slot_start_time s)
               (slot_tags s) (slot_ingest_time s)
  | StartTime =>
      mk_Slots (slot_value s) (slot_description s) (slot_timestamp s)
               (slot_confidence s) (slot_title s) (slot_type s) v
               (slot_tags s) (slot_ingest_time s)
  | Tags =>
      mk_Slots (slot_value s) (slot_description s) (slot_timestamp s)
               (slot_confidence s) (slot_title s) (slot_type s)
               (slot_start_time s) v (slot_ingest_time s)
  | IngestTime =>
      mk_Slots (slot_value s) (slot_description s) (slot_timestamp s)
               (slot_confidence s) (slot_title s) (slot_type s)
               (slot_start_time s) (slot_tags s) v
  end.

(** The place of a field in the dictionary. *)
Definition slot_place (f : slot) : list string :=
  (slot_path f ++ [slot_key f])%list.

(** The dictionary has the nine fields, whatever else it holds. *)
Definition has_fields (doc : json) : Prop :=
  forall f, exists v, getitem_path (slot_place f) doc = Ok v.

Definition all_slots : list slot :=
  [Value; Description; Timestamp; Confidence; Title;
   SecurityType; StartTime; Tags; IngestTime].

(** [doc] with the field [f] holding [v]. *)
Definition with_field (f : slot) (v : json) (doc : json) : json :=
  match setitem_path (slot_path f) (slot_key f) v doc with
  | Ok doc' => doc'
  | Raise _ => doc
  end.

(** [doc] with the fields of [fields] holding what [values] gives them. *)
Definition with_values (fields : list slot) (values : slot -> json)
    (doc : json) : json :=
  foldl (fun doc f => with_field f (values f) doc) doc fields.

(** [doc] with its nine fields holding [s]. *)
Definition with_fields (s : Slots) (doc : json) : json :=
  with_values all_slots (fun f => get_slot f s) doc.

(** The field [f] as [doc] holds it. *)
Definition field_of (doc : json) (f : slot) : json :=
  match getitem_path (slot_place f) doc with
  | Ok v => v
  | Raise _ => JNull
  end.

(** The nine fields as [doc] holds them. *)
Definition fields_of (doc : json) : Slots :=
  mk_Slots (field_of doc Value) (field_of doc Description)
           (field_of doc Timestamp) (field_of doc Confidence)
           (field_of doc Title) (field_of doc SecurityType)
           (field_of doc StartTime) (field_of doc Tags)
           (field_of doc IngestTime).

(** [doc] is [doc0] but for the nine fields. *)
Definition well_shaped (doc0 doc : json) : Prop :=
  exists s, doc = with_fields s doc0.

(** Two places of a nested dictionary are apart when their paths part
    before either of them ends. *)
Fixpoint apart (a b : list string) : bool :=
  match a, b with
  | x :: a', y :: b' => if String.eqb x y then apart a' b' else true
  | _, _ => false
  end.

(** A dictionary like [SIGHTING_SCHEMA] that holds more than the nine
    fields: a type of the entity, a precision of the start time and a source
    in the metadata. *)
Definition SIGHTING_SCHEMA_with_rest : json :=
  JObj [(DATA_STR, JObj [
    (DATA_STR, JObj [
       (VALUE, JStr "");
       (DESCRIPTION, JStr "");
       (TIMESTAMP_STR, JStr "");
       (CONFIDENCE, JStr "");
       (TITLE, JStr "");
       (SECURITY_CONTROL, JObj [
          (TYPE, JStr "");
          (TIME, JObj [(TYPE, JStr "time-period");
                       (START_TIME, JStr "");
                       ("start_time_precision", JStr "second")])])]);
    (TYPE, JStr "eclecticiq-sighting");
    (META, JObj [
       ("source", JStr "splunk");
       (TAGS, JArr []);
       (INGEST_TIME, JStr "")])])].

(** The fields as a call of the handler leaves them: the values of the
    form, the second reading of the clock as timestamp and ingest time, and
    midnight of the date of the first reading as start time. *)
Definition filled (value description confidence title tags type : string)
    (today : date) (time : datetime) : Slots :=
  {| slot_value := JStr value;
     slot_description := JStr description;
     slot_timestamp := JStr (strftime time TIME_FORMAT);
     slot_confidence := JStr confidence;
     slot_title := JStr title;
     slot_type := JStr type;
     slot_start_time :=
       JStr (strftime
               (datetime_ymd000 (d_year today) (d_month today) (d_day today))
               TIME_FORMAT);
     slot_tags := JArr [JStr (py_join "" (py_list tags))];
     slot_ingest_time := JStr (strftime time TIME_FORMAT) |}.

(** Worlds that differ at most in the module-level dictionary. *)
Definition same_trace (w w' : World) : Prop :=
  utcnow_calls w' = utcnow_calls w /\
  outbound w' = outbound w /\
  log_records w' = log_records w.

(** Worlds that differ at most in the log. *)
Definition same_but_log (w w' : World) : Prop :=
  SIGHTING_SCHEMA w' = SIGHTING_SCHEMA w /\
  utcnow_calls w' = utcnow_calls w /\
  outbound w' = outbound w.

Definition with_request (request : HttpRequest) (w : World) : World :=
  mk_World (SIGHTING_SCHEMA w) (utcnow_calls w) (outbound w ++ [request])
           (log_records w).

(** The first lines of [send_request]: the proxies handed to
    [requests.request], or the exception raised before the [try]. *)
Definition proxy_settings_of (proxy : option (gmap string string))
  : result (option (gmap string string)) :=
  match proxy with
  | None => Raise (AttributeError "get")
  | Some fields =>
      if bool_decide (fields !! "proxy_enabled" = Some "1") then
        match format_proxy_uri fields with
        | Ok uri => Ok (Some uri)
        | Raise e => Raise e
        end
      else Ok None
  end.

(** The request that [handle_submit] hands to [requests.request]. *)
Definition request_for (base : string) (api_key : option string)
    (proxy_settings : option (gmap string string)) (doc : json)
  : HttpRequest :=
  {| req_method := "post";
     req_url := base ++ "/entities";
     req_headers := {[ AUTHORIZATION := "Bearer " ++ py_str_opt api_key ]};
     req_data := json_dumps doc;
     req_verify := true;
     req_timeout := 50;
     req_proxies := proxy_settings |}.

(** A computation that changes nothing but the module-level dictionary. *)
Definition keeps_trace {A : Type} (m : M A) : Prop :=
  forall w, same_trace w (snd (m w)).

(** The world when the handler has logged the request and read the clock
    twice. *)
Definition entered (w : World) : World :=
  mk_World (SIGHTING_SCHEMA w) (S (S (utcnow_calls w))) (outbound w)
           (log_records w ++ [(INFO, REQUEST_RECEIVED)]).

(** The world when [get_url] has raised. *)
Definition logged (w : World) : World :=
  mk_World (SIGHTING_SCHEMA w) (utcnow_calls w) (outbound w)
           (log_records w ++ [(INFO, REQUEST_RECEIVED)]).

(** The stanza that [get_proxy] returns, [None] included. *)
Definition proxy_stanza : option (gmap string string) :=
  match settings_conf env with
  | Some localsettingsconf => get_proxy_loop localsettingsconf
  | None => None
  end.

(** Lines 265 to 267 of [Send.handle]: the password of the request is put
    in a stanza that is there and not empty. *)
Definition proxy_of_request (payload : gmap string string)
  : option (gmap string string) :=
  match proxy_stanza with
  | Some fields =>
      if bool_decide (fields = ∅) then Some fields
      else Some (<[PROXY_PASSWORD :=
                    if truthy (payload !! "proxy_pass")
                    then py_str_opt (payload !! "proxy_pass") else ""]> fields)
  | None => None
  end.

(** The calls of [requests.request] made by one call of the handler. *)
Definition issued (in_dict : InDict) (w : World) : list HttpRequest :=
  drop (length (outbound w)) (outbound (snd (handle env in_dict w))).

End Vocabulary.

(** The states of the process that calls of the handler can reach from the
    state in which the module was loaded, whatever the configuration files,
    the clock and the remote service are at each call. *)
Inductive reachable {platform : Platform} (loaded : World) : World -> Prop :=
| reachable_loaded : reachable loaded loaded
| reachable_handle (env : Env) (in_dict : InDict) (w : World) :
    reachable loaded w -> reachable loaded (snd (handle env in_dict w)).

(** * The assignments of the handler in their order *)

(** Lines 268 to 287 of [Send.handle]: the fields in the order in which the
    handler assigns them. *)
Definition fill_sequence : list slot :=
  [Value; Description; Timestamp; Confidence; Title; Tags; SecurityType;
   StartTime; IngestTime].

(** The key of the form that the right-hand side of an assignment
    subscribes; the three times are not read from the form. *)
Definition form_key (f : slot) : option string :=
  match f with
  | Value => Some SIGHTING_VALUE
  | Description => Some SIGHTING_DESC
  | Confidence => Some CONFIDENCE_LEVEL
  | Title => Some SIGHTING_TITLE
  | Tags => Some SIGHTING_TAGS
  | SecurityType => Some SIGHTING_TYPE
  | Timestamp | StartTime | IngestTime => None
  end.

(** The assignments of [fields] that are made before the first one whose
    key the form lacks, and that key. *)
Fixpoint assigned_until (payload : gmap string string) (fields : list slot)
  : list slot * option string :=
  match fields with
  | [] => ([], None)
  | f :: rest =>
      match form_key f with
      | Some key =>
          match payload !! key with
          | Some _ =>
              let '(done, missing) := assigned_until payload rest in
              (f :: done, missing)
          | None => ([], Some key)
          end
      | None =>
          let '(done, missing) := assigned_until payload rest in
          (f :: done, missing)
      end
  end.

(** The right-hand sides of the nine assignments, for the fields that the
    form holds. *)
Definition request_slots (payload : gmap string string) (today : date)
    (time : datetime) : Slots :=
  filled (default "" (payload !! SIGHTING_VALUE))
         (default "" (payload !! SIGHTING_DESC))
         (default "" (payload !! CONFIDENCE_LEVEL))
         (default "" (payload !! SIGHTING_TITLE))
         (default "" (payload !! SIGHTING_TAGS))
         (default "" (payload !! SIGHTING_TYPE))
         today time.

(** The exception that leaves [send_request] when [requests.request] has
    raised [err]: the clauses for [HTTPError] and for the other cases of
    [RequestException] read the local variable [response], which is not
    assigned then, and every other clause raises [err] again. *)
Definition raised_by_send_request (err : exn) : exn :=
  match err with
  | HTTPError _ | RequestException => UnboundLocalError "response"
  | _ => err
  end.

(** The level at which [send_request] logs a status from 400 to 599. *)
Definition error_level (code : Z) : Level :=
  if (500 <=? code)%Z then CRITICAL else ERROR.

(** * A simulated deployment

    One account, a proxy that is switched on, a clock that stands still and
    a remote service that gives the same answer to every request; the Python
    library is stood in for by a compact rendering of JSON. *)

Definition quote_char : string := String (ascii_of_nat 34) "".

(** A compact rendering of a JSON value, without escapes. *)
Fixpoint sim_dumps (j : json) : string :=
  match j with
  | JNull => "null"
  | JBool b => if b then "true" else "false"
  | JNum z => py_str_int z
  | JStr s => quote_char ++ s ++ quote_char
  | JArr items => "[" ++ py_join ", " (map sim_dumps items) ++ "]"
  | JObj members =>
      "{" ++ py_join ", "
               (map (fun member =>
                       quote_char ++ fst member ++ quote_char ++ ": "
                       ++ sim_dumps (snd member)) members) ++ "}"
  end.

(** The body of the simulated reply to a created sighting: its [data.id] is
    "abc123". *)
Definition sim_created : json :=
  JObj [(DATA_STR, JObj [("id", JStr "abc123")])].

(** A reader that knows the simulated reply only. *)
Definition sim_loads (s : string) : option json :=
  if String.eqb s (sim_dumps sim_created) then Some sim_created else None.

Definition sim_format_proxy_uri (fields : gmap string string)
  : result (gmap string string) :=
  match fields !! "proxy_url", fields !! "proxy_port" with
  | Some host, Some port =>
      Ok {[ "https" := "http://" ++ host ++ ":" ++ port ]}
  | None, _ => Raise (KeyError "proxy_url")
  | _, None => Raise (KeyError "proxy_port")
  end.

Definition sim_platform : Platform :=
  {| json_dumps := sim_dumps;
     json_loads := sim_loads;
     py_repr := sim_dumps;
     format_proxy_uri := sim_format_proxy_uri |}.

Definition sim_accounts : ConfFile :=
  [("default", ∅); ("eiq", {[ URL := "https://tip.example/api/v1" ]})].

Definition sim_settings : ConfFile :=
  [("default", ∅);
   (PROXY, {[ "proxy_enabled" := "1"; "proxy_url" := "10.0.0.8";
              "proxy_port" := "3128" ]})].

Definition sim_now : datetime := mk_datetime 2024 3 9 12 30 15 250000.

Definition sim_env (accounts settings : option ConfFile) (wire : Wire) : Env :=
  {| accounts_conf := accounts;
     settings_conf := settings;
     clock := fun _ => sim_now;
     remote := fun _ => wire |}.

Definition sim_503 : Wire :=
  Responds (mk_HttpResponse 503 "Service Unavailable").

Definition sim_201 : Wire :=
  Responds (mk_HttpResponse 201 (sim_dumps sim_created)).

Definition sim_304 : Wire := Responds (mk_HttpResponse 304 "").

Definition sim_timeout : Wire := Fails Timeout.

(** The deployment as configured, by the answer of the remote service. *)
Definition sim_configured (wire : Wire) : Env :=
  sim_env (Some sim_accounts) (Some sim_settings) wire.

(** A form with the credential, the six fields and the proxy password. *)
Definition sim_form : InDict :=
  {| form := [(CREDS, "k3y"); (SIGHTING_VALUE, "198.51.100.7");
              (SIGHTING_DESC, "seen in proxy logs");
              (CONFIDENCE_LEVEL, "high");
              (SIGHTING_TITLE, "Splunk sighting");
              (SIGHTING_TAGS, "malware,c2");
              (SIGHTING_TYPE, "ip"); ("proxy_pass", "s3cret")] |}.

(** A form with the credential and nothing else. *)
Definition sim_form_creds_only : InDict := {| form := [(CREDS, "k3y")] |}.

(** A form with the six fields and no credential. *)
Definition sim_form_no_creds : InDict :=
  {| form := [(SIGHTING_VALUE, "198.51.100.7");
              (SIGHTING_DESC, "seen in proxy logs");
              (CONFIDENCE_LEVEL, "high");
              (SIGHTING_TITLE, "Splunk sighting");
              (SIGHTING_TAGS, "malware,c2");
              (SIGHTING_TYPE, "ip")] |}.

(** The document that [sim_form] makes at [sim_now]. *)
Definition sim_document : json :=
  with_fields (filled "198.51.100.7" "seen in proxy logs" "high"
                      "Splunk sighting" "malware,c2" "ip"
                      (date_of sim_now) sim_now)
              SIGHTING_SCHEMA_loaded.

(** The request that [sim_form] makes in the configured deployment. *)
Definition sim_request : HttpRequest :=
  {| req_method := "post";
     req_url := "https://tip.example/api/v1/entities";
     req_headers := {[ AUTHORIZATION := "Bearer k3y" ]};
     req_data := sim_dumps sim_document;
     req_verify := true;
     req_timeout := 50;
     req_proxies := Some {[ "https" := "http://10.0.0.8:3128" ]} |}.

(** The handler on the simulated platform. *)
Definition sim_handle (env : Env) (in_dict : InDict) : M Response :=
  handle (platform := sim_platform) env in_dict.
(** ** More simulated surroundings *)

Definition sim_404 : Wire := Responds (mk_HttpResponse 404 "Not Found").

Definition sim_connection_error : Wire := Fails ConnectionError.

(** An exception of [requests] that is none of [HTTPError],
    [ConnectionError] and [Timeout], as [MissingSchema] is. *)
Definition sim_missing_schema : Wire := Fails RequestException.

(** A reply with status 200 whose body is not JSON. *)
Definition sim_200_html : Wire :=
  Responds (mk_HttpResponse 200 "<html></html>").

(** A form with the credential and five of the six fields: the type of the
    sighting is missing. *)
Definition sim_form_no_type : InDict :=
  {| form := [(CREDS, "k3y"); (SIGHTING_VALUE, "198.51.100.7");
              (SIGHTING_DESC, "seen in proxy logs");
              (CONFIDENCE_LEVEL, "high");
              (SIGHTING_TITLE, "Splunk sighting");
              (SIGHTING_TAGS, "malware,c2")] |}.

(** A proxy stanza that is switched on and names no host. *)
Definition sim_settings_no_host : ConfFile :=
  [("default", ∅);
   (PROXY, {[ "proxy_enabled" := "1"; "proxy_port" := "3128" ]})].

(** A clock that passes midnight between its first reading and the
    following ones. *)
Definition sim_clock_midnight (n : nat) : datetime :=
  match n with
  | O => mk_datetime 2024 3 9 23 59 59 999999
  | S _ => mk_datetime 2024 3 10 0 0 0 1
  end.

Definition sim_env_midnight : Env :=
  {| accounts_conf := Some sim_accounts;
     settings_conf := Some sim_settings;
     clock := sim_clock_midnight;
     remote := fun _ => sim_201 |}.

(** A world in which an earlier request has left its values. *)
Definition sim_world_used : World :=
  snd (sim_handle (sim_configured sim_201) sim_form World_loaded).

(** * Properties *)

(** ** Python idioms *)

Lemma py_join_cons (c : ascii) (parts : list string) :
  py_join "" (String c "" :: parts) = String c (py_join "" parts).
Proof. destruct parts; reflexivity. Qed.

(** Joining the characters of a string with the empty separator gives the
    string back. *)
Lemma py_join_py_list (s : string) : py_join "" (py_list s) = s.
Proof.
  induction s as [|c s IH]; [reflexivity|].
  change (py_list (String c s)) with (String c "" :: py_list s).
  now rewrite py_join_cons, IH.
Qed.

Lemma truthy_Some (o : option string) :
  truthy o = true <-> exists s, o = Some s /\ s <> "".
Proof.
  destruct o as [s|]; simpl.
  - rewrite negb_true_iff. split.
    + intros H. exists s. split; [reflexivity|].
      intros ->. discriminate.
    + intros (s' & [= <-] & Hne). now apply String.eqb_neq.
  - split; [discriminate|]. now intros (s & [=] & _).
Qed.

(** The three-digit statuses that begin with the digit 2. *)
Lemma startswith_2xx (code : Z) :
  (200 <= code <= 299)%Z -> startswith (py_str_int code) "2" = true.
Proof.
  intros Hcode.
  assert (Hall : forallb (fun k => startswith (py_str_int (200 + Z.of_nat k)) "2")
                         (seq 0 100) = true) by (vm_compute; reflexivity).
  rewrite forallb_forall in Hall.
  specialize (Hall (Z.to_nat (code - 200))).
  replace (200 + Z.of_nat (Z.to_nat (code - 200)))%Z with code in Hall by lia.
  apply Hall, in_seq. lia.
Qed.

(** ** Nested dictionaries *)

Lemma obj_get_set_eq k v d : obj_get k (obj_set k v d) = Some v.
Proof.
  induction d as [|[k' v'] d IH]; simpl.
  - now rewrite String.eqb_refl.
  - destruct (String.eqb k k') eqn:Hk; simpl; rewrite Hk; [reflexivity|exact IH].
Qed.

Lemma obj_get_set_ne k k' v d :
  k <> k' -> obj_get k' (obj_set k v d) = obj_get k' d.
Proof.
  intros Hne. induction d as [|[k0 v0] d IH]; simpl.
  - destruct (String.eqb_spec k' k); [congruence|reflexivity].
  - destruct (String.eqb_spec k k0) as [->|Hk0]; simpl.
    + destruct (String.eqb_spec k' k0); [congruence|reflexivity].
    + destruct (String.eqb k' k0); [reflexivity|exact IH].
Qed.

Lemma obj_set_set_eq k v v' d : obj_set k v (obj_set k v' d) = obj_set k v d.
Proof.
  induction d as [|[k0 v0] d IH]; simpl.
  - now rewrite String.eqb_refl.
  - destruct (String.eqb k k0) eqn:Hk; simpl; rewrite Hk; [reflexivity|].
    now rewrite IH.
Qed.

Lemma obj_set_get_id k v d : obj_get k d = Some v -> obj_set k v d = d.
Proof.
  induction d as [|[k0 v0] d IH]; simpl; [discriminate|].
  destruct (String.eqb_spec k k0) as [->|Hk0].
  - now intros [= ->].
  - intros H. now rewrite IH.
Qed.

(** Assignments to two keys that the dictionary has can be swapped. *)
Lemma obj_set_set_ne k k' v v' d :
  k <> k' -> obj_get k d <> None -> obj_get k' d <> None ->
  obj_set k v (obj_set k' v' d) = obj_set k' v' (obj_set k v d).
Proof.
  intros Hne. induction d as [|[k0 v0] d IH]; simpl; [congruence|].
  intros Hk Hk'.
  destruct (String.eqb_spec k k0) as [->|Hk0];
    destruct (String.eqb_spec k' k0) as [->|Hk0']; simpl.
  - congruence.
  - rewrite String.eqb_refl.
    destruct (String.eqb_spec k' k0); [congruence|reflexivity].
  - rewrite String.eqb_refl.
    destruct (String.eqb_spec k k0); [congruence|reflexivity].
  - destruct (String.eqb_spec k k0); [congruence|].
    destruct (String.eqb_spec k' k0); [congruence|].
    now rewrite IH.
Qed.

Lemma apart_nil_r a : apart a [] = false.
Proof. now destruct a. Qed.

(** A place that can be read can be assigned, and is read back as
    assigned. *)
Lemma setitem_path_defined path key v root u :
  getitem_path (path ++ [key]) root = Ok u ->
  exists root',
    setitem_path path key v root = Ok root' /\
    getitem_path (path ++ [key]) root' = Ok v.
Proof.
  revert root. induction path as [|k path IH]; intros root; simpl.
  - destruct root as [| | | | |d]; try discriminate.
    intros _. eexists. split; [reflexivity|]. simpl.
    now rewrite obj_get_set_eq.
  - destruct root as [| | | | |d]; try discriminate.
    destruct (obj_get k d) as [child|] eqn:Hchild; [|discriminate].
    intros Hread. destruct (IH child Hread) as (child' & -> & Hback).
    eexists. split; [reflexivity|]. simpl. now rewrite obj_get_set_eq.
Qed.

(** An assignment leaves the places apart from it as they were. *)
Lemma getitem_path_apart path key v root root' other :
  setitem_path path key v root = Ok root' ->
  apart (path ++ [key]) other = true ->
  getitem_path other root' = getitem_path other root.
Proof.
  revert root root' other.
  induction path as [|k path IH]; intros root root' other; simpl.
  - destruct root as [| | | | |d]; try discriminate. intros [= <-].
    destruct other as [|y other]; [discriminate|]. simpl.
    destruct (String.eqb_spec key y) as [->|Hne]; [discriminate|].
    intros _. now rewrite obj_get_set_ne.
  - destruct root as [| | | | |d]; try discriminate.
    destruct (obj_get k d) as [child|] eqn:Hchild; [|discriminate].
    destruct (setitem_path path key v child) as [child'|] eqn:Hset;
      [|discriminate].
    intros [= <-]. destruct other as [|y other]; [discriminate|]. simpl.
    destruct (String.eqb_spec k y) as [->|Hne].
    + intros Hapart. rewrite obj_get_set_eq, Hchild.
      exact (IH _ _ _ Hset Hapart).
    + intros _. now rewrite obj_get_set_ne.
Qed.

(** A second assignment to a place makes the first forgotten. *)
Lemma setitem_path_twice path key v v' root root1 :
  setitem_path path key v' root = Ok root1 ->
  setitem_path path key v root1 = setitem_path path key v root.
Proof.
  revert root root1. induction path as [|k path IH]; intros root root1; simpl.
  - destruct root as [| | | | |d]; try discriminate. intros [= <-].
    now rewrite obj_set_set_eq.
  - destruct root as [| | | | |d]; try discriminate.
    destruct (obj_get k d) as [child|] eqn:Hchild; [|discriminate].
    destruct (setitem_path path key v' child) as [child1|] eqn:Hset;
      [|discriminate].
    intros [= <-]. rewrite obj_get_set_eq, (IH _ _ Hset).
    destruct (setitem_path path key v child); [|reflexivity].
    now rewrite obj_set_set_eq.
Qed.

(** Assigning to a place what it holds changes nothing. *)
Lemma setitem_path_same path key v root :
  getitem_path (path ++ [key]) root = Ok v ->
  setitem_path path key v root = Ok root.
Proof.
  revert root. induction path as [|k path IH]; intros root; simpl.
  - destruct root as [| | | | |d]; try discriminate.
    destruct (obj_get key d) as [u|] eqn:Hu; [|discriminate].
    intros [= ->]. now rewrite (obj_set_get_id _ _ _ Hu).
  - destruct root as [| | | | |d]; try discriminate.
    destruct (obj_get k d) as [child|] eqn:Hchild; [|discriminate].
    intros Hread. rewrite (IH _ Hread). now rewrite (obj_set_get_id _ _ _ Hchild).
Qed.

(** Assignments to two places that are there and apart can be swapped. *)
Lemma setitem_path_swap path key v other okey v' root root1 root2 u u' :
  apart (path ++ [key]) (other ++ [okey]) = true ->
  getitem_path (path ++ [key]) root = Ok u ->
  getitem_path (other ++ [okey]) root = Ok u' ->
  setitem_path path key v root = Ok root1 ->
  setitem_path other okey v' root = Ok root2 ->
  setitem_path other okey v' root1 = setitem_path path key v root2.
Proof.
  revert other root root1 root2.
  induction path as [|k path IH]; intros other root root1 root2.
  - destruct other as [|y other]; simpl.
    + destruct (String.eqb_spec key okey) as [->|Hne]; [discriminate|].
      intros _. destruct root as [| | | | |d]; try discriminate.
      destruct (obj_get key d) eqn:Hk; [|discriminate].
      intros _.
      destruct (obj_get okey d) eqn:Hk'; [|discriminate].
      intros _ [= <-] [= <-]. f_equal. f_equal.
      symmetry. apply obj_set_set_ne; congruence.
    + destruct (String.eqb_spec key y) as [->|Hne]; [discriminate|].
      intros _. destruct root as [| | | | |d]; try discriminate.
      destruct (obj_get key d) eqn:Hk; [|discriminate].
      intros _.
      destruct (obj_get y d) as [child|] eqn:Hy; [|discriminate].
      intros _ [= <-].
      destruct (setitem_path other okey v' child) as [child'|] eqn:Hset;
        [|discriminate].
      intros [= <-]. rewrite obj_get_set_ne, Hy, Hset by exact Hne.
      f_equal. f_equal. symmetry. apply obj_set_set_ne; congruence.
  - destruct other as [|y other]; simpl.
    + destruct (String.eqb_spec k okey) as [->|Hne];
        [now rewrite apart_nil_r|].
      intros _. destruct root as [| | | | |d]; try discriminate.
      destruct (obj_get k d) as [child|] eqn:Hk; [|discriminate].
      intros _.
      destruct (obj_get okey d) eqn:Hk'; [|discriminate].
      intros _.
      destruct (setitem_path path key v child) as [child'|] eqn:Hset;
        [|discriminate].
      intros [= <-] [= <-].
      rewrite obj_get_set_ne, Hk, Hset by congruence.
      f_equal. f_equal. apply obj_set_set_ne; congruence.
    + destruct root as [| | | | |d]; try discriminate.
      destruct (String.eqb_spec k y) as [->|Hne].
      * intros Hapart.
        destruct (obj_get y d) as [child|] eqn:Hy; [|discriminate].
        intros Hread Hread'.
        destruct (setitem_path path key v child) as [child1|] eqn:Hset1;
          [|discriminate].
        destruct (setitem_path other okey v' child) as [child2|] eqn:Hset2;
          [|discriminate].
        intros [= <-] [= <-].
        rewrite !obj_get_set_eq.
        rewrite (IH _ _ _ _ Hapart Hread Hread' Hset1 Hset2).
        destruct (setitem_path path key v child2); [|reflexivity].
        now rewrite !obj_set_set_eq.
      * intros _.
        destruct (obj_get k d) as [child|] eqn:Hk; [|discriminate].
        intros _.
        destruct (obj_get y d) as [ochild|] eqn:Hy; [|discriminate].
        intros _.
        destruct (setitem_path path key v child) as [child1|] eqn:Hset1;
          [|discriminate].
        destruct (setitem_path other okey v' ochild) as [child2|] eqn:Hset2;
          [|discriminate].
        intros [= <-] [= <-].
        rewrite !obj_get_set_ne, Hk, Hy, Hset1, Hset2 by congruence.
        f_equal. f_equal. symmetry. apply obj_set_set_ne; congruence.
Qed.

(** ** The nine fields of a dictionary *)

#[local] Instance slot_eq_dec : EqDecision slot.
Proof. solve_decision. Defined.

Lemma slot_places_apart f g :
  f <> g -> apart (slot_place f) (slot_place g) = true.
Proof. destruct f, g; intros H; solve [reflexivity | now elim H]. Qed.

Lemma all_slots_NoDup : NoDup all_slots.
Proof. apply (bool_decide_unpack _). vm_compute. exact I. Qed.

Lemma all_slots_complete f : f ∈ all_slots.
Proof. apply (bool_decide_unpack _). destruct f; vm_compute; exact I. Qed.

Lemma get_set_slot f v g s :
  get_slot g (set_slot f v s) = if decide (g = f) then v else get_slot g s.
Proof. destruct f, g; reflexivity. Qed.

Section Fields.

Variable doc : json.
Hypothesis Hdoc : has_fields doc.

Lemma with_field_set f v :
  setitem_path (slot_path f) (slot_key f) v doc = Ok (with_field f v doc).
Proof.
  unfold with_field. destruct (Hdoc f) as [u Hu].
  destruct (setitem_path_defined _ _ v _ _ Hu) as (doc' & -> & _).
  reflexivity.
Qed.

Lemma with_field_get_eq f v :
  getitem_path (slot_place f) (with_field f v doc) = Ok v.
Proof.
  unfold with_field. destruct (Hdoc f) as [u Hu].
  destruct (setitem_path_defined _ _ v _ _ Hu) as (doc' & -> & Hback).
  exact Hback.
Qed.

Lemma with_field_get_ne f g v :
  f <> g ->
  getitem_path (slot_place g) (with_field f v doc)
  = getitem_path (slot_place g) doc.
Proof.
  intros Hne.
  exact (getitem_path_apart _ _ _ _ _ _ (with_field_set f v)
           (slot_places_apart f g Hne)).
Qed.

Lemma with_field_has_fields f v : has_fields (with_field f v doc).
Proof.
  intros g. destruct (decide (f = g)) as [<-|Hne].
  - exists v. apply with_field_get_eq.
  - rewrite with_field_get_ne by exact Hne. apply Hdoc.
Qed.

End Fields.

Lemma with_field_twice doc f v v' :
  has_fields doc ->
  with_field f v (with_field f v' doc) = with_field f v doc.
Proof.
  intros Hdoc.
  assert (H : Ok (with_field f v (with_field f v' doc))
              = Ok (with_field f v doc)); [|now injection H].
  rewrite <- (with_field_set _ (with_field_has_fields doc Hdoc f v') f v).
  rewrite <- (with_field_set doc Hdoc f v).
  exact (setitem_path_twice _ _ v _ _ _ (with_field_set doc Hdoc f v')).
Qed.

Lemma with_field_swap doc f g v v' :
  has_fields doc -> f <> g ->
  with_field g v' (with_field f v doc) = with_field f v (with_field g v' doc).
Proof.
  intros Hdoc Hne.
  destruct (Hdoc f) as [u Hu]. destruct (Hdoc g) as [u' Hu'].
  assert (H : Ok (with_field g v' (with_field f v doc))
              = Ok (with_field f v (with_field g v' doc))); [|now injection H].
  rewrite <- (with_field_set _ (with_field_has_fields doc Hdoc f v) g v').
  rewrite <- (with_field_set _ (with_field_has_fields doc Hdoc g v') f v).
  exact (setitem_path_swap _ _ v _ _ v' _ _ _ _ _
           (slot_places_apart f g Hne) Hu Hu'
           (with_field_set doc Hdoc f v) (with_field_set doc Hdoc g v')).
Qed.

Lemma with_field_same doc f v :
  getitem_path (slot_place f) doc = Ok v -> with_field f v doc = doc.
Proof.
  intros Hread. unfold with_field.
  now rewrite (setitem_path_same _ _ _ _ Hread).
Qed.

Lemma with_values_has_fields fields values doc :
  has_fields doc -> has_fields (with_values fields values doc).
Proof.
  revert doc. induction fields as [|f fields IH]; intros doc Hdoc; simpl;
    [exact Hdoc|].
  apply IH, with_field_has_fields, Hdoc.
Qed.

Lemma with_values_ext fields values values' doc :
  (forall f, f ∈ fields -> values f = values' f) ->
  with_values fields values doc = with_values fields values' doc.
Proof.
  revert doc. induction fields as [|f fields IH]; intros doc Hext; simpl;
    [reflexivity|].
  rewrite (Hext f) by apply list_elem_of_here.
  apply IH. intros g Hg. apply Hext, list_elem_of_further, Hg.
Qed.

(** An assignment to a field that is not among [fields] can be made first. *)
Lemma with_field_with_values fields values doc f v :
  has_fields doc -> f ∉ fields ->
  with_field f v (with_values fields values doc)
  = with_values fields values (with_field f v doc).
Proof.
  revert doc. induction fields as [|g fields IH]; intros doc Hdoc Hnot; simpl;
    [reflexivity|].
  apply not_elem_of_cons in Hnot as [Hne Hnot].
  rewrite IH by (try apply with_field_has_fields; assumption).
  now rewrite (with_field_swap doc f g) by assumption.
Qed.

(** An assignment to one of [fields] replaces the value that was given to
    it. *)
Lemma with_field_update fields values doc f v :
  has_fields doc -> NoDup fields -> f ∈ fields ->
  with_field f v (with_values fields values doc)
  = with_values fields (fun g => if decide (g = f) then v else values g) doc.
Proof.
  revert doc. induction fields as [|g fields IH]; intros doc Hdoc Hnodup Hin;
    [inversion Hin|].
  apply NoDup_cons in Hnodup as [Hfresh Hnodup]. simpl.
  destruct (decide (g = f)) as [->|Hne].
  - rewrite with_field_with_values
      by (try apply with_field_has_fields; assumption).
    rewrite with_field_twice by exact Hdoc.
    apply with_values_ext. intros g Hg.
    destruct (decide (g = f)) as [->|]; [contradiction|reflexivity].
  - apply elem_of_cons in Hin as [->|Hin]; [contradiction|].
    apply IH; [apply with_field_has_fields|..]; assumption.
Qed.

Lemma with_values_get fields values doc f :
  has_fields doc -> NoDup fields -> f ∈ fields ->
  getitem_path (slot_place f) (with_values fields values doc) = Ok (values f).
Proof.
  revert doc. induction fields as [|g fields IH]; intros doc Hdoc Hnodup Hin;
    [inversion Hin|].
  apply NoDup_cons in Hnodup as [Hfresh Hnodup]. simpl.
  apply elem_of_cons in Hin as [->|Hin].
  - rewrite <- with_field_with_values by assumption.
    apply with_field_get_eq, with_values_has_fields, Hdoc.
  - apply IH; [apply with_field_has_fields|..]; assumption.
Qed.

Lemma with_values_same fields values doc :
  (forall f, f ∈ fields -> getitem_path (slot_place f) doc = Ok (values f)) ->
  with_values fields values doc = doc.
Proof.
  induction fields as [|g fields IH]; intros Hread; simpl; [reflexivity|].
  rewrite with_field_same by apply Hread, list_elem_of_here.
  apply IH. intros f Hf. apply Hread, list_elem_of_further, Hf.
Qed.

(** *** The nine fields of a dictionary that has them *)

Lemma with_fields_set doc f v s :
  has_fields doc ->
  setitem_path (slot_path f) (slot_key f) v (with_fields s doc)
  = Ok (with_fields (set_slot f v s) doc).
Proof.
  intros Hdoc. unfold with_fields.
  rewrite with_field_set by apply with_values_has_fields, Hdoc.
  rewrite with_field_update
    by (try apply all_slots_NoDup; try apply all_slots_complete; assumption).
  f_equal. apply with_values_ext. intros g _. now rewrite get_set_slot.
Qed.

Lemma with_fields_get doc f s :
  has_fields doc ->
  getitem_path (slot_path f ++ [slot_key f])%list (with_fields s doc)
  = Ok (get_slot f s).
Proof.
  intros Hdoc. unfold with_fields.
  now apply (with_values_get all_slots (fun f => get_slot f s));
    [|apply all_slots_NoDup|apply all_slots_complete].
Qed.

Lemma with_fields_fields_of doc :
  has_fields doc -> with_fields (fields_of doc) doc = doc.
Proof.
  intros Hdoc. unfold with_fields. apply with_values_same. intros f _.
  destruct (Hdoc f) as [v Hv]. rewrite Hv. f_equal.
  destruct f; unfold fields_of, field_of; simpl in *; now rewrite Hv.
Qed.

Lemma SIGHTING_SCHEMA_loaded_has_fields : has_fields SIGHTING_SCHEMA_loaded.
Proof. intros f. destruct f; eexists; reflexivity. Qed.

(** A dictionary may hold more than the nine fields. *)
Lemma SIGHTING_SCHEMA_with_rest_has_fields :
  has_fields SIGHTING_SCHEMA_with_rest.
Proof. intros f. destruct f; eexists; reflexivity. Qed.

(** A dictionary that has the nine fields is itself but for them. *)
Lemma has_fields_well_shaped doc : has_fields doc -> well_shaped doc doc.
Proof.
  intros Hdoc. exists (fields_of doc). symmetry.
  now apply with_fields_fields_of.
Qed.

(** Assigning a field through the reference. *)
Lemma assign_slot doc0 (Hdoc0 : has_fields doc0) f v s n out lg :
  assign REF_SIGHTING_SCHEMA (slot_path f) (slot_key f) v
         (mk_World (with_fields s doc0) n out lg)
  = (Ok tt, mk_World (with_fields (set_slot f v s) doc0) n out lg).
Proof. unfold assign. simpl. now rewrite with_fields_set. Qed.

(** ** The form *)

Lemma parse_form_data_loop_other key (form_data : list (string * string))
      (parsed : gmap string string) :
  key ∉ map fst form_data ->
  foldl (fun parsed '(key, value) => <[key := value]> parsed) parsed form_data
    !! key
  = parsed !! key.
Proof.
  revert parsed.
  induction form_data as [|[key' value] form_data IH]; intros parsed Hnot;
    simpl; [reflexivity|].
  simpl in Hnot. apply not_elem_of_cons in Hnot as [Hne Hnot].
  rewrite IH by exact Hnot. apply lookup_insert_ne. congruence.
Qed.

(** The last pair of a key is the one that the parsed form holds. *)
Lemma parse_form_data_last (before after : list (string * string)) key value :
  key ∉ map fst after ->
  parse_form_data (before ++ (key, value) :: after)%list !! key = Some value.
Proof.
  intros Hnot. unfold parse_form_data. rewrite foldl_app. simpl.
  rewrite parse_form_data_loop_other by exact Hnot.
  apply lookup_insert_eq.
Qed.

(** A key that no pair has is not in the parsed form. *)
Lemma parse_form_data_absent (form_data : list (string * string)) key :
  key ∉ map fst form_data -> parse_form_data form_data !! key = None.
Proof.
  intros Hnot. unfold parse_form_data.
  rewrite parse_form_data_loop_other by exact Hnot. apply lookup_empty.
Qed.

(** ** The configuration resolver *)

Lemma get_url_absent_file : get_url None = Ok None.
Proof. reflexivity. Qed.

(** [get_proxy] has no operation that can raise. *)
Lemma get_proxy_returns settings_conf :
  exists stanza, get_proxy settings_conf = Ok stanza.
Proof. destruct settings_conf; simpl; eauto. Qed.

(** The loop of [get_url] over stanzas that [name] is not among leaves the
    entry of [name] as it was. *)
Lemma get_url_loop_other name (items : ConfFile) account_name apikeyconf :
  name ∉ map fst items ->
  snd (foldl get_url_step (account_name, apikeyconf) items) !! name
  = apikeyconf !! name.
Proof.
  revert account_name apikeyconf.
  induction items as [|[name' content] items IH]; intros a m Hnot; simpl;
    [reflexivity|].
  simpl in Hnot. apply not_elem_of_cons in Hnot as [Hne Hnot].
  rewrite IH by exact Hnot.
  destruct (m !! name'); apply lookup_insert_ne; congruence.
Qed.

(** Over stanzas that are all named "default" the loop leaves
    [account_name] as it was. *)
Lemma get_url_loop_default (items : ConfFile) account_name apikeyconf :
  Forall (fun item => fst item = "default") items ->
  fst (foldl get_url_step (account_name, apikeyconf) items) = account_name.
Proof.
  revert account_name apikeyconf.
  induction items as [|[name content] items IH]; intros a m Hall; simpl;
    [reflexivity|].
  inversion Hall as [|? ? Hname Hrest]; subst. simpl in Hname. subst name.
  simpl. apply IH, Hrest.
Qed.

(** A file that exists and has no account stanza makes [get_url] raise: the
    local variable [account_name] is read without having been assigned. *)
Lemma get_url_without_account (localconf : ConfFile) :
  Forall (fun item => fst item = "default") localconf ->
  get_url (Some localconf) = Raise (UnboundLocalError "account_name").
Proof.
  intros Hall. unfold get_url.
  pose proof (get_url_loop_default localconf None ∅ Hall) as Hname.
  destruct (foldl get_url_step (None, ∅) localconf) as [account_name conf].
  simpl in Hname. subst account_name. reflexivity.
Qed.

(** With stanzas of different names, as in a dictionary, [get_url] looks the
    URL up in the last stanza that is not named "default": it returns the
    URL, or raises [KeyError] when the stanza has none. *)
Lemma get_url_last_account (before after : ConfFile) name fields :
  name <> "default" ->
  name ∉ map fst before ->
  Forall (fun item => fst item = "default") after ->
  get_url (Some (before ++ (name, fields) :: after)%list)
  = match fields !! URL with
    | Some url => Ok (Some url)
    | None => Raise (KeyError URL)
    end.
Proof.
  intros Hname Hbefore Hafter. unfold get_url.
  rewrite foldl_app. simpl.
  pose proof (get_url_loop_other name before None ∅ Hbefore) as Hfresh.
  destruct (foldl get_url_step (None, ∅) before) as [a m].
  simpl in Hfresh. rewrite lookup_empty in Hfresh.
  unfold get_url_step at 2. rewrite Hfresh.
  replace (negb (String.eqb name "default")) with true
    by (symmetry; apply negb_true_iff, String.eqb_neq, Hname).
  pose proof (get_url_loop_default after (Some name) (<[name:=fields]> m)
                Hafter) as Hlast.
  assert (Hnot : name ∉ map fst after).
  { intros Hin. apply list_elem_of_fmap in Hin as ([name' content] & Heq & Hin).
    simpl in Heq. subst name'.
    rewrite Forall_forall in Hafter. apply Hafter in Hin. contradiction. }
  pose proof (get_url_loop_other name after (Some name) (<[name:=fields]> m)
                Hnot) as Hentry.
  destruct (foldl get_url_step (Some name, <[name:=fields]> m) after)
    as [account_name apikeyconf].
  simpl in Hlast, Hentry. subst account_name.
  rewrite Hentry, lookup_insert_eq. reflexivity.
Qed.

(** ** The rendering of times *)

Lemma strftime_TIME_FORMAT t :
  strftime t TIME_FORMAT
  = zero_pad 4 (year t) ++ "-" ++ zero_pad 2 (month t) ++ "-"
    ++ zero_pad 2 (day t) ++ "T" ++ zero_pad 2 (hour t) ++ ":"
    ++ zero_pad 2 (minute t) ++ ":" ++ zero_pad 2 (second t) ++ "."
    ++ zero_pad 6 (microsecond t) ++ "Z".
Proof. reflexivity. Qed.

(** Midnight of a day renders with all the fields of the time at zero. *)
Lemma strftime_midnight y m d :
  strftime (datetime_ymd000 y m d) TIME_FORMAT
  = zero_pad 4 y ++ "-" ++ zero_pad 2 m ++ "-" ++ zero_pad 2 d
    ++ "T00:00:00.000000Z".
Proof. reflexivity. Qed.

(** ** The blocks of the handler *)

(** One assignment of [handle_fill], on a dictionary that has the nine
    fields. *)
Ltac fill_step H f :=
  cbv beta iota delta [ret raise]; rewrite (assign_slot _ H f);
  cbv beta iota delta [ret raise].

Section Blocks.

Context {platform : Platform}.
Variable env : Env.

Lemma assign_same_trace r path key v w :
  same_trace w (snd (assign r path key v w)).
Proof.
  unfold assign. destruct r. destruct (setitem_path path key v _); simpl;
    repeat split; reflexivity.
Qed.

(** With the six fields in the form the block fills the nine fields of the
    dictionary. *)
Lemma handle_fill_ok doc0 (Hdoc0 : has_fields doc0) payload today time s n out lg
      value description confidence title tags type :
  payload !! SIGHTING_VALUE = Some value ->
  payload !! SIGHTING_DESC = Some description ->
  payload !! CONFIDENCE_LEVEL = Some confidence ->
  payload !! SIGHTING_TITLE = Some title ->
  payload !! SIGHTING_TAGS = Some tags ->
  payload !! SIGHTING_TYPE = Some type ->
  handle_fill payload today time REF_SIGHTING_SCHEMA
              (mk_World (with_fields s doc0) n out lg)
  = (Ok tt,
     mk_World (with_fields (filled value description confidence title tags type
                              today time) doc0) n out lg).
Proof.
  intros Hv Hd Hc Ht Hg Hy.
  unfold handle_fill, getitem, bind.
  rewrite Hv, Hd, Hc, Ht, Hg, Hy.
  fill_step Hdoc0 Value. fill_step Hdoc0 Description. fill_step Hdoc0 Timestamp.
  fill_step Hdoc0 Confidence. fill_step Hdoc0 Title. fill_step Hdoc0 Tags.
  fill_step Hdoc0 SecurityType. fill_step Hdoc0 StartTime. fill_step Hdoc0 IngestTime.
  reflexivity.
Qed.

(** The block either finds the six fields and fills the dictionary, or is
    left by the [KeyError] of the first field that is missing; the
    dictionary is the one before the block but for the nine fields in both
    cases. *)
Lemma handle_fill_cases doc0 (Hdoc0 : has_fields doc0) payload today time s n out lg :
  (exists value description confidence title tags type,
     payload !! SIGHTING_VALUE = Some value /\
     payload !! SIGHTING_DESC = Some description /\
     payload !! CONFIDENCE_LEVEL = Some confidence /\
     payload !! SIGHTING_TITLE = Some title /\
     payload !! SIGHTING_TAGS = Some tags /\
     payload !! SIGHTING_TYPE = Some type /\
     handle_fill payload today time REF_SIGHTING_SCHEMA
                 (mk_World (with_fields s doc0) n out lg)
     = (Ok tt,
        mk_World (with_fields (filled value description confidence title tags type
                                 today time) doc0) n out lg)) \/
  (exists key s',
     payload !! key = None /\
     handle_fill payload today time REF_SIGHTING_SCHEMA
                 (mk_World (with_fields s doc0) n out lg)
     = (Raise (KeyError key), mk_World (with_fields s' doc0) n out lg)).
Proof.
  destruct (payload !! SIGHTING_VALUE) as [value|] eqn:Hv; cycle 1.
  { right. exists SIGHTING_VALUE. unfold handle_fill, getitem, bind.
    rewrite Hv. eauto. }
  destruct (payload !! SIGHTING_DESC) as [description|] eqn:Hd; cycle 1.
  { right. exists SIGHTING_DESC. unfold handle_fill, getitem, bind.
    rewrite Hv, Hd. fill_step Hdoc0 Value. eauto. }
  destruct (payload !! CONFIDENCE_LEVEL) as [confidence|] eqn:Hc; cycle 1.
  { right. exists CONFIDENCE_LEVEL. unfold handle_fill, getitem, bind.
    rewrite Hv, Hd, Hc. fill_step Hdoc0 Value. fill_step Hdoc0 Description.
    fill_step Hdoc0 Timestamp. eauto. }
  destruct (payload !! SIGHTING_TITLE) as [title|] eqn:Ht; cycle 1.
  { right. exists SIGHTING_TITLE. unfold handle_fill, getitem, bind.
    rewrite Hv, Hd, Hc, Ht. fill_step Hdoc0 Value. fill_step Hdoc0 Description.
    fill_step Hdoc0 Timestamp. fill_step Hdoc0 Confidence. eauto. }
  destruct (payload !! SIGHTING_TAGS) as [tags|] eqn:Hg; cycle 1.
  { right. exists SIGHTING_TAGS. unfold handle_fill, getitem, bind.
    rewrite Hv, Hd, Hc, Ht, Hg. fill_step Hdoc0 Value. fill_step Hdoc0 Description.
    fill_step Hdoc0 Timestamp. fill_step Hdoc0 Confidence. fill_step Hdoc0 Title. eauto. }
  destruct (payload !! SIGHTING_TYPE) as [type|] eqn:Hy; cycle 1.
  { right. exists SIGHTING_TYPE. unfold handle_fill, getitem, bind.
    rewrite Hv, Hd, Hc, Ht, Hg, Hy. fill_step Hdoc0 Value. fill_step Hdoc0 Description.
    fill_step Hdoc0 Timestamp. fill_step Hdoc0 Confidence. fill_step Hdoc0 Title.
    fill_step Hdoc0 Tags. eauto. }
  left. exists value, description, confidence, title, tags, type.
  repeat split. now apply handle_fill_ok.
Qed.

(** The assignments of the handler change nothing but the dictionary behind
    [sighting], and leave it the dictionary it was but for the nine fields. *)
Lemma handle_fill_frame doc0 (Hdoc0 : has_fields doc0) payload today time w :
  well_shaped doc0 (SIGHTING_SCHEMA w) ->
  let w' := snd (handle_fill payload today time REF_SIGHTING_SCHEMA w) in
  same_trace w w' /\ well_shaped doc0 (SIGHTING_SCHEMA w').
Proof.
  intros [s Hs]. destruct w as [doc n out lg]. simpl in Hs. subst doc.
  destruct (handle_fill_cases doc0 Hdoc0 payload today time s n out lg)
    as [(v & d & c & t & g & y & _ & _ & _ & _ & _ & _ & ->)
       | (key & s' & _ & ->)];
    (split; [repeat split|eexists; reflexivity]).
Qed.

Lemma send_request_except_world response err w :
  same_but_log w (snd (send_request_except response err w)) /\
  exists e, fst (send_request_except response err w) = Raise e.
Proof.
  unfold send_request_except, same_but_log.
  destruct err, response as [r|]; cbn;
    try (destruct (startswith _ _); cbn); repeat split; eauto.
Qed.

Lemma send_request_unissued url headers proxy w e :
  proxy_settings_of proxy = Raise e ->
  send_request env url headers proxy REF_SIGHTING_SCHEMA w = (Raise e, w).
Proof.
  unfold proxy_settings_of, send_request. intros H.
  destruct proxy as [fields|]; [|by simplify_eq].
  unfold bind at 1.
  destruct (bool_decide _); [|discriminate].
  unfold bind at 1, lift.
  destruct (format_proxy_uri fields); [discriminate|].
  by simplify_eq.
Qed.

Lemma send_request_issued url headers proxy w proxy_settings :
  proxy_settings_of proxy = Ok proxy_settings ->
  let request :=
    mk_HttpRequest "post" url headers (json_dumps (SIGHTING_SCHEMA w)) true 50
                   proxy_settings in
  send_request env url headers proxy REF_SIGHTING_SCHEMA w =
  match remote env request with
  | Responds response =>
      match raise_for_status response with
      | Ok _ => (Ok response, with_request request w)
      | Raise err =>
          send_request_except (Some response) err (with_request request w)
      end
  | Fails err => send_request_except None err (with_request request w)
  end.
Proof.
  intros H request. unfold proxy_settings_of in H. unfold send_request.
  destruct proxy as [fields|]; [|discriminate].
  unfold bind at 1.
  destruct (bool_decide _).
  - unfold bind at 1, lift.
    destruct (format_proxy_uri fields) as [uri|]; [|discriminate].
    simplify_eq. cbn. unfold requests_request. fold request.
    destruct (remote env request); reflexivity.
  - simplify_eq. cbn. unfold requests_request. fold request.
    destruct (remote env request); reflexivity.
Qed.

Lemma submit_no_url api_key proxy w :
  handle_submit env None api_key proxy REF_SIGHTING_SCHEMA w
  = (Ok (create_response 500 (Error (TypeError "+"))), w).
Proof. reflexivity. Qed.

Lemma submit_unissued base api_key proxy w e :
  proxy_settings_of proxy = Raise e ->
  handle_submit env (Some base) api_key proxy REF_SIGHTING_SCHEMA w
  = (Ok (create_response 500 (Error e)), w).
Proof.
  intros H. unfold handle_submit, try_except, bind. cbn [ret].
  rewrite (send_request_unissued _ _ _ _ _ H). reflexivity.
Qed.

Ltac run_monad :=
  cbv beta iota delta [ret raise lift bind logger try_except local negb fst snd].

Ltac submit_start H request :=
  unfold handle_submit, try_except, bind; cbn [ret];
  rewrite (send_request_issued _ _ _ _ _ H);
  match goal with
  | |- context [remote env ?r] => change r with request
  end.

Lemma submit_issued_world base api_key proxy w proxy_settings :
  proxy_settings_of proxy = Ok proxy_settings ->
  let request := request_for base api_key proxy_settings (SIGHTING_SCHEMA w) in
  same_but_log (with_request request w)
    (snd (handle_submit env (Some base) api_key proxy REF_SIGHTING_SCHEMA w)).
Proof.
  intros H request. submit_start H request.
  destruct (remote env request) as [response|err].
  - destruct (raise_for_status response) as [[]|err].
    + run_monad.
      destruct (startswith _ _); run_monad; [|repeat split].
      destruct (json_loads _) as [parsed|]; run_monad; [|repeat split].
      destruct (getitem_path _ parsed); run_monad; repeat split.
    + destruct (send_request_except_world (Some response) err
                  (with_request request w)) as [Hw [e He]].
      destruct (send_request_except _ _ _) as [r w']. simpl in *. subst r.
      exact Hw.
  - destruct (send_request_except_world None err
                (with_request request w)) as [Hw [e He]].
    destruct (send_request_except _ _ _) as [r w']. simpl in *. subst r.
    exact Hw.
Qed.

(** A status from 400 to 599: [raise_for_status] raises, the exception is
    raised again by [send_request] and caught by the [try] of the handler. *)
Lemma submit_error_status base api_key proxy w proxy_settings response :
  proxy_settings_of proxy = Ok proxy_settings ->
  remote env (request_for base api_key proxy_settings (SIGHTING_SCHEMA w))
    = Responds response ->
  (400 <= status_code response < 600)%Z ->
  fst (handle_submit env (Some base) api_key proxy REF_SIGHTING_SCHEMA w)
  = Ok (create_response 500 (Error (HTTPError (status_code response)))).
Proof.
  intros H Hremote Hcode.
  set (request := request_for base api_key proxy_settings (SIGHTING_SCHEMA w)) in *.
  submit_start H request. rewrite Hremote.
  unfold raise_for_status.
  replace ((400 <=? status_code response) && (status_code response <? 600))%Z
    with true by (symmetry; apply andb_true_iff; split; lia).
  unfold send_request_except, local, bind. cbn [ret].
  destruct (startswith _ _); reflexivity.
Qed.

(** Any other status that does not begin with the digit 2. *)
Lemma submit_other_status base api_key proxy w proxy_settings response :
  proxy_settings_of proxy = Ok proxy_settings ->
  remote env (request_for base api_key proxy_settings (SIGHTING_SCHEMA w))
    = Responds response ->
  ~ (400 <= status_code response < 600)%Z ->
  startswith (py_str_int (status_code response)) "2" = false ->
  fst (handle_submit env (Some base) api_key proxy REF_SIGHTING_SCHEMA w)
  = Ok (create_response (status_code response)
                        (Text COULD_NOT_CREATE_SIGHTING)).
Proof.
  intros H Hremote Hcode Hstart.
  set (request := request_for base api_key proxy_settings (SIGHTING_SCHEMA w)) in *.
  submit_start H request. rewrite Hremote.
  unfold raise_for_status.
  replace ((400 <=? status_code response) && (status_code response <? 600))%Z
    with false by (symmetry; apply andb_false_iff; lia).
  run_monad. rewrite Hstart. reflexivity.
Qed.

(** A status that begins with the digit 2 and a reply that holds an
    identifier. *)
Lemma submit_created base api_key proxy w proxy_settings response parsed id :
  proxy_settings_of proxy = Ok proxy_settings ->
  remote env (request_for base api_key proxy_settings (SIGHTING_SCHEMA w))
    = Responds response ->
  startswith (py_str_int (status_code response)) "2" = true ->
  ~ (400 <= status_code response < 600)%Z ->
  json_loads (content response) = Some parsed ->
  getitem_path [DATA_STR; "id"] parsed = Ok id ->
  fst (handle_submit env (Some base) api_key proxy REF_SIGHTING_SCHEMA w)
  = Ok (create_response (status_code response)
          (Text (SIGHTING_CREATED_format base (format_arg id)))).
Proof.
  intros H Hremote Hstart Hcode Hparsed Hid.
  set (request := request_for base api_key proxy_settings (SIGHTING_SCHEMA w)) in *.
  submit_start H request. rewrite Hremote.
  unfold raise_for_status.
  replace ((400 <=? status_code response) && (status_code response <? 600))%Z
    with false by (symmetry; apply andb_false_iff; lia).
  run_monad. rewrite Hstart, Hparsed, Hid. reflexivity.
Qed.

(** An exception of [requests.request] never leaves the handler. *)
Lemma submit_fails base api_key proxy w proxy_settings err :
  proxy_settings_of proxy = Ok proxy_settings ->
  remote env (request_for base api_key proxy_settings (SIGHTING_SCHEMA w))
    = Fails err ->
  exists e,
    fst (handle_submit env (Some base) api_key proxy REF_SIGHTING_SCHEMA w)
    = Ok (create_response 500 (Error e)).
Proof.
  intros H Hremote.
  set (request := request_for base api_key proxy_settings (SIGHTING_SCHEMA w)) in *.
  submit_start H request. rewrite Hremote.
  destruct (send_request_except_world None err
              (with_request request w)) as [_ [e He]].
  destruct (send_request_except _ _ _) as [r w']. simpl in *. subst r.
  exists e. reflexivity.
Qed.

End Blocks.

Section Whole.

Context {platform : Platform}.
Variable env : Env.

Lemma keeps_trace_bind {A B : Type} (m : M A) (k : A -> M B) :
  keeps_trace m -> (forall a, keeps_trace (k a)) -> keeps_trace (bind m k).
Proof.
  intros Hm Hk w. unfold bind. specialize (Hm w).
  destruct (m w) as [[a|e] w']; simpl in Hm; [|exact Hm].
  specialize (Hk a w'). destruct Hm as (Hm1 & Hm2 & Hm3).
  destruct Hk as (Hk1 & Hk2 & Hk3).
  repeat split; congruence.
Qed.

Lemma keeps_trace_getitem d k : keeps_trace (getitem d k).
Proof. intros w. unfold getitem. destruct (d !! k); repeat split. Qed.

Lemma keeps_trace_assign r path key v : keeps_trace (assign r path key v).
Proof. intros w. apply assign_same_trace. Qed.

Lemma handle_fill_keeps_trace payload today time :
  keeps_trace (handle_fill payload today time REF_SIGHTING_SCHEMA).
Proof.
  unfold handle_fill.
  repeat (apply keeps_trace_bind;
          [first [apply keeps_trace_getitem | apply keeps_trace_assign]
          |intros ?]).
  apply keeps_trace_assign.
Qed.

(** The handler by its three ways through lines 250 to 267. *)
Lemma handle_eq in_dict w :
  let payload := parse_form_data (form in_dict) in
  handle env in_dict w =
  match get_url (accounts_conf env) with
  | Raise e => (Raise e, logged w)
  | Ok url =>
      if truthy (payload !! CREDS) then
        bind (handle_fill payload (date_of (clock env (utcnow_calls w)))
                          (clock env (S (utcnow_calls w))) REF_SIGHTING_SCHEMA)
             (fun _ => handle_submit env url (payload !! CREDS)
                                     (proxy_of_request env payload)
                                     REF_SIGHTING_SCHEMA)
             (entered w)
      else (Ok (create_response 401 (Text CREDS_NOT_FOUND)), entered w)
  end.
Proof.
  intros payload. unfold handle, proxy_of_request, proxy_stanza, get_proxy.
  fold payload.
  destruct (get_url (accounts_conf env)) as [url|e]; [|reflexivity].
  destruct (settings_conf env) as [localsettingsconf|];
    destruct (truthy (payload !! CREDS)); reflexivity.
Qed.

(** [handle_submit] leaves the module-level dictionary and the clock as
    they are, and makes at most one call of [requests.request]. *)
Lemma submit_world url api_key proxy w :
  let w' := snd (handle_submit env url api_key proxy REF_SIGHTING_SCHEMA w) in
  SIGHTING_SCHEMA w' = SIGHTING_SCHEMA w /\
  utcnow_calls w' = utcnow_calls w /\
  (outbound w' = outbound w \/
   exists base proxy_settings,
     url = Some base /\
     proxy_settings_of proxy = Ok proxy_settings /\
     outbound w' =
       (outbound w
          ++ [request_for base api_key proxy_settings (SIGHTING_SCHEMA w)])%list).
Proof.
  intros w'. subst w'.
  destruct url as [base|]; [|rewrite submit_no_url; auto].
  destruct (proxy_settings_of proxy) as [proxy_settings|e] eqn:Hproxy;
    [|rewrite (submit_unissued env _ _ _ _ _ Hproxy); auto].
  destruct (submit_issued_world env base api_key _ w _ Hproxy) as (H1 & H2 & H3).
  repeat split; [exact H1|exact H2|]. right. eauto.
Qed.

(** Every call of the handler either makes no call of [requests.request],
    or makes exactly one, after [get_url] gave a base URL, a credential was
    found and the nine fields were assigned; its result is then the result
    of [handle_submit]. *)
Lemma handle_issued in_dict w :
  let payload := parse_form_data (form in_dict) in
  let w' := snd (handle env in_dict w) in
  issued env in_dict w = [] \/
  exists base w2 proxy_settings,
    get_url (accounts_conf env) = Ok (Some base) /\
    truthy (payload !! CREDS) = true /\
    handle_fill payload (date_of (clock env (utcnow_calls w)))
                (clock env (S (utcnow_calls w))) REF_SIGHTING_SCHEMA (entered w)
      = (Ok tt, w2) /\
    proxy_settings_of (proxy_of_request env payload) = Ok proxy_settings /\
    handle env in_dict w
      = handle_submit env (Some base) (payload !! CREDS)
                      (proxy_of_request env payload) REF_SIGHTING_SCHEMA w2 /\
    issued env in_dict w
      = [request_for base (payload !! CREDS) proxy_settings (SIGHTING_SCHEMA w2)] /\
    SIGHTING_SCHEMA w' = SIGHTING_SCHEMA w2.
Proof.
  intros payload w'. subst w'. unfold issued.
  rewrite handle_eq. fold payload.
  destruct (get_url (accounts_conf env)) as [url|e];
    [|left; simpl; apply drop_all].
  destruct (truthy (payload !! CREDS)); [|left; simpl; apply drop_all].
  unfold bind.
  pose proof (handle_fill_keeps_trace payload
                (date_of (clock env (utcnow_calls w)))
                (clock env (S (utcnow_calls w))) (entered w)) as (_ & Hout & _).
  destruct (handle_fill _ _ _ _ _) as [[[]|e] w2]; simpl in Hout;
    [|left; simpl; rewrite Hout; apply drop_all].
  destruct (submit_world url (payload !! CREDS) (proxy_of_request env payload) w2)
    as (Hdoc & _ & [Hsame | (base & proxy_settings & -> & Hproxy & Hsent)]).
  - left. rewrite Hsame, Hout. apply drop_all.
  - right. exists base, w2, proxy_settings.
    repeat split; try assumption.
    rewrite Hsent, Hout. simpl. apply drop_app_length.
Qed.

(** The calls of [requests.request] of earlier calls of the handler stay in
    the record; the call adds its own after them. *)
Lemma handle_outbound in_dict w :
  outbound (snd (handle env in_dict w))
  = (outbound w ++ issued env in_dict w)%list.
Proof.
  unfold issued. rewrite handle_eq.
  destruct (get_url (accounts_conf env)) as [url|e];
    [|simpl; now rewrite drop_all, app_nil_r].
  destruct (truthy _); [|simpl; now rewrite drop_all, app_nil_r].
  unfold bind.
  pose proof (handle_fill_keeps_trace (parse_form_data (form in_dict))
                (date_of (clock env (utcnow_calls w)))
                (clock env (S (utcnow_calls w))) (entered w)) as (_ & Hout & _).
  destruct (handle_fill _ _ _ _ _) as [[[]|e] w2]; simpl in Hout;
    [|simpl; now rewrite Hout, drop_all, app_nil_r].
  destruct (submit_world url (parse_form_data (form in_dict) !! CREDS)
              (proxy_of_request env (parse_form_data (form in_dict))) w2)
    as (_ & _ & [Hsame | (base & proxy_settings & _ & _ & Hsent)]).
  - now rewrite Hsame, Hout, drop_all, app_nil_r.
  - rewrite Hsent, Hout. simpl. now rewrite drop_app_length.
Qed.

End Whole.

Section Claims.

Context {platform : Platform}.
Variable env : Env.

(** When the block ends without an exception, the six fields were in the
    form and the nine fields of the dictionary hold their values. *)
Lemma handle_fill_inv doc0 (Hdoc0 : has_fields doc0) payload today time w w2 :
  well_shaped doc0 (SIGHTING_SCHEMA w) ->
  handle_fill payload today time REF_SIGHTING_SCHEMA w = (Ok tt, w2) ->
  exists value description confidence title tags type,
    payload !! SIGHTING_VALUE = Some value /\
    payload !! SIGHTING_DESC = Some description /\
    payload !! CONFIDENCE_LEVEL = Some confidence /\
    payload !! SIGHTING_TITLE = Some title /\
    payload !! SIGHTING_TAGS = Some tags /\
    payload !! SIGHTING_TYPE = Some type /\
    SIGHTING_SCHEMA w2 =
      with_fields (filled value description confidence title tags type today time) doc0.
Proof.
  intros [s Hs] Hfill. destruct w as [doc n out lg]. simpl in Hs. subst doc.
  destruct (handle_fill_cases doc0 Hdoc0 payload today time s n out lg)
    as [(v & d & c & t & g & y & Hv & Hd & Hc & Ht & Hg & Hy & Hok)
       | (key & s' & _ & Hraise)].
  - rewrite Hok in Hfill. exists v, d, c, t, g, y.
    inversion Hfill; subst; simpl. repeat split; assumption.
  - rewrite Hraise in Hfill. discriminate Hfill.
Qed.

(** With a base URL, a credential and the six fields, the handler reaches
    [handle_submit] with the dictionary filled. *)
Lemma handle_filled in_dict w url key
      value description confidence title tags type :
  let payload := parse_form_data (form in_dict) in
  has_fields (SIGHTING_SCHEMA w) ->
  get_url (accounts_conf env) = Ok url ->
  payload !! CREDS = Some key -> key <> "" ->
  payload !! SIGHTING_VALUE = Some value ->
  payload !! SIGHTING_DESC = Some description ->
  payload !! CONFIDENCE_LEVEL = Some confidence ->
  payload !! SIGHTING_TITLE = Some title ->
  payload !! SIGHTING_TAGS = Some tags ->
  payload !! SIGHTING_TYPE = Some type ->
  handle env in_dict w
  = handle_submit env url (Some key) (proxy_of_request env payload)
      REF_SIGHTING_SCHEMA
      (mk_World (with_fields
                   (filled value description confidence title tags type
                           (date_of (clock env (utcnow_calls w)))
                           (clock env (S (utcnow_calls w))))
                   (SIGHTING_SCHEMA w))
                (S (S (utcnow_calls w))) (outbound w)
                (log_records w ++ [(INFO, REQUEST_RECEIVED)])).
Proof.
  intros payload Hfields Hurl Hkey Hne Hv Hd Hc Ht Hg Hy.
  rewrite handle_eq. fold payload. rewrite Hurl, Hkey.
  replace (truthy (Some key)) with true
    by (symmetry; apply truthy_Some; eauto).
  destruct w as [doc n out lg]. unfold bind, entered. simpl in *.
  pose proof (handle_fill_ok _ Hfields payload (date_of (clock env n))
                (clock env (S n)) (fields_of doc) (S (S n)) out
                (lg ++ [(INFO, REQUEST_RECEIVED)]) _ _ _ _ _ _
                Hv Hd Hc Ht Hg Hy) as Hok.
  rewrite (with_fields_fields_of _ Hfields) in Hok.
  rewrite Hok. reflexivity.
Qed.

(** An exception of [get_url] leaves the handler, before anything else is
    looked at. *)
Lemma get_url_exception_leaves_handler in_dict w e :
  get_url (accounts_conf env) = Raise e ->
  fst (handle env in_dict w) = Raise e /\
  outbound (snd (handle env in_dict w)) = outbound w.
Proof. intros Hurl. rewrite handle_eq, Hurl. split; reflexivity. Qed.


(** A request whose form holds no credential, or an empty one, makes no
    call of [requests.request]; when [get_url], which is called before the
    credential is looked at, has returned, the request is answered with
    status 401 and the "credentials not found" message. *)
Theorem missing_credential_answered_401 in_dict w :
  let payload := parse_form_data (form in_dict) in
  payload !! CREDS = None \/ payload !! CREDS = Some "" ->
  outbound (snd (handle env in_dict w)) = outbound w /\
  forall url,
    get_url (accounts_conf env) = Ok url ->
    fst (handle env in_dict w)
      = Ok {| PAYLOAD := Text CREDS_NOT_FOUND;
              STATUS_STR := 401;
              HEADERS := {[ CONTENT_TYPE := TEXT_PLAIN ]} |}.
Proof.
  intros payload Hcreds.
  assert (Hfalse : truthy (payload !! CREDS) = false)
    by (destruct Hcreds as [-> | ->]; reflexivity).
  split.
  - rewrite handle_eq. fold payload. rewrite Hfalse.
    destruct (get_url (accounts_conf env)); reflexivity.
  - intros url Hurl. rewrite handle_eq. fold payload.
    rewrite Hurl, Hfalse. reflexivity.
Qed.

(** When the two readings of the clock fall on the same day: with a form
    that holds the credential and the six fields, the timestamp of the data
    section and the ingest time of the metadata are the second reading
    [nowUtc], rendered with [TIME_FORMAT], and the start time of the
    security control is midnight of the calendar date of [nowUtc], rendered
    with the same format. *)
Theorem built_document_times in_dict w nowUtc url key
        value description confidence title tags type :
  let payload := parse_form_data (form in_dict) in
  clock env (S (utcnow_calls w)) = nowUtc ->
  date_of (clock env (utcnow_calls w)) = date_of nowUtc ->
  has_fields (SIGHTING_SCHEMA w) ->
  get_url (accounts_conf env) = Ok url ->
  payload !! CREDS = Some key -> key <> "" ->
  payload !! SIGHTING_VALUE = Some value ->
  payload !! SIGHTING_DESC = Some description ->
  payload !! CONFIDENCE_LEVEL = Some confidence ->
  payload !! SIGHTING_TITLE = Some title ->
  payload !! SIGHTING_TAGS = Some tags ->
  payload !! SIGHTING_TYPE = Some type ->
  let doc := SIGHTING_SCHEMA (snd (handle env in_dict w)) in
  getitem_path [DATA_STR; DATA_STR; TIMESTAMP_STR] doc
    = Ok (JStr (strftime nowUtc TIME_FORMAT)) /\
  getitem_path [DATA_STR; META; INGEST_TIME] doc
    = Ok (JStr (strftime nowUtc TIME_FORMAT)) /\
  getitem_path [DATA_STR; DATA_STR; SECURITY_CONTROL; TIME; START_TIME] doc
    = Ok (JStr (strftime
                  (mk_datetime (year nowUtc) (month nowUtc) (day nowUtc) 0 0 0 0)
                  TIME_FORMAT)).
Proof.
  intros payload Hnow Htoday Hfields Hurl Hkey Hne Hv Hd Hc Ht Hg Hy doc.
  subst doc.
  rewrite (handle_filled _ _ _ _ _ _ _ _ _ _
             Hfields Hurl Hkey Hne Hv Hd Hc Ht Hg Hy).
  fold payload.
  match goal with
  | |- context [handle_submit env ?u ?k ?p ?r ?w2] =>
      destruct (submit_world env u k p w2) as (-> & _)
  end.
  rewrite Htoday, Hnow. simpl SIGHTING_SCHEMA.
  set (s := filled value description confidence title tags type
                   (date_of nowUtc) nowUtc).
  repeat split;
    [exact (with_fields_get _ Timestamp s Hfields)
    |exact (with_fields_get _ IngestTime s Hfields)
    |exact (with_fields_get _ StartTime s Hfields)].
Qed.

(** C8: the tags of the metadata are the one-element list that holds the
    submitted tags string, unchanged. *)
Theorem tags_pass_through in_dict w url key
        value description confidence title tags type :
  let payload := parse_form_data (form in_dict) in
  has_fields (SIGHTING_SCHEMA w) ->
  get_url (accounts_conf env) = Ok url ->
  payload !! CREDS = Some key -> key <> "" ->
  payload !! SIGHTING_VALUE = Some value ->
  payload !! SIGHTING_DESC = Some description ->
  payload !! CONFIDENCE_LEVEL = Some confidence ->
  payload !! SIGHTING_TITLE = Some title ->
  payload !! SIGHTING_TAGS = Some tags ->
  payload !! SIGHTING_TYPE = Some type ->
  getitem_path [DATA_STR; META; TAGS]
               (SIGHTING_SCHEMA (snd (handle env in_dict w)))
    = Ok (JArr [JStr tags]).
Proof.
  intros payload Hfields Hurl Hkey Hne Hv Hd Hc Ht Hg Hy.
  rewrite (handle_filled _ _ _ _ _ _ _ _ _ _
             Hfields Hurl Hkey Hne Hv Hd Hc Ht Hg Hy).
  fold payload.
  match goal with
  | |- context [handle_submit env ?u ?k ?p ?r ?w2] =>
      destruct (submit_world env u k p w2) as (-> & _)
  end.
  simpl SIGHTING_SCHEMA.
  match goal with
  | |- getitem_path _ (with_fields ?s _) = _ =>
      etransitivity; [exact (with_fields_get _ Tags s Hfields)|]
  end.
  simpl. rewrite py_join_py_list. reflexivity.
Qed.


(** A call of [requests.request] made by the handler that is answered with
    a status from 400 to 599 ends in status 500, with the [HTTPError] as
    body. *)
Lemma error_status_answered_500 in_dict w r response :
  r ∈ issued env in_dict w ->
  remote env r = Responds response ->
  (400 <= status_code response < 600)%Z ->
  fst (handle env in_dict w)
    = Ok (create_response 500 (Error (HTTPError (status_code response)))).
Proof.
  intros Hr Hremote Hcode.
  destruct (handle_issued env in_dict w)
    as [Hnone | (base & w2 & ps & _ & _ & _ & Hproxy & -> & Hone & _)].
  - rewrite Hnone in Hr. inversion Hr.
  - rewrite Hone in Hr. apply list_elem_of_singleton in Hr. subst r.
    exact (submit_error_status env _ _ _ _ _ _ Hproxy Hremote Hcode).
Qed.

(** A status outside 400 to 599 that does not begin with the digit 2 is
    handed on with the generic message. *)
Lemma other_status_handed_on in_dict w r response :
  r ∈ issued env in_dict w ->
  remote env r = Responds response ->
  ~ (400 <= status_code response < 600)%Z ->
  startswith (py_str_int (status_code response)) "2" = false ->
  fst (handle env in_dict w)
    = Ok (create_response (status_code response)
                          (Text COULD_NOT_CREATE_SIGHTING)).
Proof.
  intros Hr Hremote Hcode Hstart.
  destruct (handle_issued env in_dict w)
    as [Hnone | (base & w2 & ps & _ & _ & _ & Hproxy & -> & Hone & _)].
  - rewrite Hnone in Hr. inversion Hr.
  - rewrite Hone in Hr. apply list_elem_of_singleton in Hr. subst r.
    exact (submit_other_status env _ _ _ _ _ _ Hproxy Hremote Hcode Hstart).
Qed.

(** C6: a call of [requests.request] answered with a status from 200 to 299
    and a JSON body whose [data.id] is [id] makes the handler return that
    status and the message "Sighting created: <url>/<id>". *)
Theorem created_reply_confirmed in_dict w r response parsed id :
  r ∈ issued env in_dict w ->
  remote env r = Responds response ->
  (200 <= status_code response <= 299)%Z ->
  json_loads (content response) = Some parsed ->
  getitem_path [DATA_STR; "id"] parsed = Ok (JStr id) ->
  exists base,
    get_url (accounts_conf env) = Ok (Some base) /\
    fst (handle env in_dict w)
      = Ok {| PAYLOAD := Text ("Sighting created: " ++ base ++ "/" ++ id);
              STATUS_STR := status_code response;
              HEADERS := {[ CONTENT_TYPE := TEXT_PLAIN ]} |}.
Proof.
  intros Hr Hremote Hcode Hparsed Hid.
  destruct (handle_issued env in_dict w)
    as [Hnone | (base & w2 & ps & Hurl & _ & _ & Hproxy & -> & Hone & _)].
  - rewrite Hnone in Hr. inversion Hr.
  - rewrite Hone in Hr. apply list_elem_of_singleton in Hr. subst r.
    exists base. split; [exact Hurl|].
    rewrite (submit_created env _ _ _ _ _ _ _ _ Hproxy Hremote
               (startswith_2xx _ Hcode) ltac:(lia) Hparsed Hid).
    reflexivity.
Qed.

(** C7: every call of [requests.request] made by the handler is the only
    one of its invocation; it posts to the base URL followed by
    "/entities", with the header [Authorization] set to "Bearer " and the
    submitted key, the serialized document as body, certificate
    verification on and a timeout of 50 seconds; proxies are given exactly
    when the proxy stanza has [proxy_enabled] equal to "1", and they are
    then what [format_proxy_uri] makes of the stanza. *)
Theorem outbound_request_shape in_dict w r :
  r ∈ issued env in_dict w ->
  issued env in_dict w = [r] /\
  exists base api_key fields,
    get_url (accounts_conf env) = Ok (Some base) /\
    parse_form_data (form in_dict) !! CREDS = Some api_key /\
    get_proxy (settings_conf env) = Ok (Some fields) /\
    req_method r = "post" /\
    req_url r = base ++ "/entities" /\
    req_headers r = {[ AUTHORIZATION := "Bearer " ++ api_key ]} /\
    req_data r = json_dumps (SIGHTING_SCHEMA (snd (handle env in_dict w))) /\
    req_verify r = true /\
    req_timeout r = 50%Z /\
    (req_proxies r <> None <-> fields !! "proxy_enabled" = Some "1") /\
    (forall uri, req_proxies r = Some uri ->
       exists sent, proxy_of_request env (parse_form_data (form in_dict))
                      = Some sent /\
                    format_proxy_uri sent = Ok uri).
Proof.
  intros Hr.
  destruct (handle_issued env in_dict w)
    as [Hnone | (base & w2 & ps & Hurl & Hkey & _ & Hproxy & _ & Hone & Hdoc)].
  { rewrite Hnone in Hr. inversion Hr. }
  rewrite Hone in Hr. apply list_elem_of_singleton in Hr. subst r.
  split; [exact Hone|].
  apply truthy_Some in Hkey. destruct Hkey as (api_key & Hkey & _).
  unfold proxy_settings_of in Hproxy.
  destruct (proxy_of_request env (parse_form_data (form in_dict)))
    as [sent|] eqn:Hsent; [|discriminate].
  assert (Hfields : exists fields,
             get_proxy (settings_conf env) = Ok (Some fields) /\
             sent !! "proxy_enabled" = fields !! "proxy_enabled").
  { unfold proxy_of_request, proxy_stanza in Hsent. unfold get_proxy.
    destruct (settings_conf env) as [conf|]; [|discriminate].
    destruct (get_proxy_loop conf) as [fields|]; [|discriminate].
    exists fields. split; [reflexivity|].
    destruct (bool_decide (fields = ∅)); injection Hsent as <-;
      [reflexivity|].
    apply lookup_insert_ne. discriminate. }
  destruct Hfields as (fields & Hfields & Henabled).
  exists base, api_key, fields. rewrite Hkey, Hdoc. simpl.
  repeat split; try assumption.
  - intros Hsome. rewrite <- Henabled.
    destruct (bool_decide (sent !! "proxy_enabled" = Some "1")) eqn:Hb.
    + now apply bool_decide_eq_true in Hb.
    + injection Hproxy as <-. contradiction.
  - intros Hone1. rewrite <- Henabled in Hone1.
    rewrite (bool_decide_eq_true_2 _ Hone1) in Hproxy.
    destruct (format_proxy_uri sent); [|discriminate].
    injection Hproxy as <-. discriminate.
  - intros uri Huri. subst ps. exists sent. split; [reflexivity|].
    destruct (bool_decide (sent !! "proxy_enabled" = Some "1"));
      [|discriminate].
    destruct (format_proxy_uri sent) as [uri'|]; [|discriminate].
    injection Hproxy as ->. reflexivity.
Qed.

End Claims.

(** ** The states that the process can reach *)

Section Reach.

Context {platform : Platform}.

Lemma handle_keeps_shape doc0 (Hdoc0 : has_fields doc0) env in_dict w :
  well_shaped doc0 (SIGHTING_SCHEMA w) ->
  well_shaped doc0 (SIGHTING_SCHEMA (snd (handle env in_dict w))).
Proof.
  intros Hshape. rewrite handle_eq.
  destruct (get_url (accounts_conf env)) as [url|e]; [|exact Hshape].
  destruct (truthy _); [|exact Hshape].
  unfold bind.
  pose proof (handle_fill_frame doc0 Hdoc0 (parse_form_data (form in_dict))
                (date_of (clock env (utcnow_calls w)))
                (clock env (S (utcnow_calls w))) (entered w) Hshape)
    as (_ & Hfilled).
  destruct (handle_fill _ _ _ _ _) as [[[]|e] w2]; simpl in Hfilled;
    [|exact Hfilled].
  destruct (submit_world env url (parse_form_data (form in_dict) !! CREDS)
              (proxy_of_request env (parse_form_data (form in_dict))) w2)
    as (-> & _).
  exact Hfilled.
Qed.

(** Every state that can be reached holds the loaded dictionary but for the
    nine fields. *)
Lemma reachable_shape loaded w :
  has_fields (SIGHTING_SCHEMA loaded) ->
  reachable loaded w ->
  well_shaped (SIGHTING_SCHEMA loaded) (SIGHTING_SCHEMA w).
Proof.
  intros Hloaded. induction 1 as [|env in_dict w _ IH].
  - now apply has_fields_well_shaped.
  - now apply handle_keeps_shape.
Qed.

(** C10, as the code has it: the local name [sighting] is the module-level
    dictionary itself, so a call of the handler assigns its nine fields in
    place and the dictionary keeps the values of the last request.  In every
    state that calls of the handler can reach from the loaded module, the
    dictionary still is the loaded one but for these nine fields, and a
    request that is sent carries the loaded dictionary with the nine fields
    taken from the form and the clock of the current call only. *)
Theorem document_sent_ignores_history loaded w :
  has_fields (SIGHTING_SCHEMA loaded) ->
  reachable loaded w ->
  (exists s, SIGHTING_SCHEMA w = with_fields s (SIGHTING_SCHEMA loaded)) /\
  forall env in_dict r,
    r ∈ issued env in_dict w ->
    exists value description confidence title tags type,
      let payload := parse_form_data (form in_dict) in
      let doc :=
        with_fields (filled value description confidence title tags type
                            (date_of (clock env (utcnow_calls w)))
                            (clock env (S (utcnow_calls w))))
                    (SIGHTING_SCHEMA loaded) in
      payload !! SIGHTING_VALUE = Some value /\
      payload !! SIGHTING_DESC = Some description /\
      payload !! CONFIDENCE_LEVEL = Some confidence /\
      payload !! SIGHTING_TITLE = Some title /\
      payload !! SIGHTING_TAGS = Some tags /\
      payload !! SIGHTING_TYPE = Some type /\
      req_data r = json_dumps doc /\
      SIGHTING_SCHEMA (snd (handle env in_dict w)) = doc.
Proof.
  intros Hloaded Hreach.
  pose proof (reachable_shape loaded w Hloaded Hreach) as Hshape.
  split; [exact Hshape|]. intros env in_dict r Hr.
  destruct (handle_issued env in_dict w)
    as [Hnone | (base & w2 & ps & _ & _ & Hfill & _ & _ & Hone & Hdoc)].
  { rewrite Hnone in Hr. inversion Hr. }
  rewrite Hone in Hr. apply list_elem_of_singleton in Hr. subst r.
  apply (handle_fill_inv _ Hloaded) in Hfill; [|exact Hshape].
  destruct Hfill as (value & description & confidence & title & tags & type
                     & Hv & Hd & Hc & Ht & Hg & Hy & Hw2).
  exists value, description, confidence, title, tags, type.
  simpl. rewrite Hdoc, Hw2. repeat split; assumption.
Qed.

End Reach.

(** ** The simulated deployment at work *)

Example sim_issued_201 :
  issued (platform := sim_platform) (sim_configured sim_201) sim_form
         World_loaded = [sim_request].
Proof. vm_compute. reflexivity. Qed.

Example sim_issued_503 :
  issued (platform := sim_platform) (sim_configured sim_503) sim_form
         World_loaded = [sim_request].
Proof. vm_compute. reflexivity. Qed.

(** C1, at a simulated 503: the request is sent and answered with status
    503, and the handler returns status 500 with the [HTTPError] as body,
    not status 503 with the generic message. *)
Theorem remote_503_answered_500 :
  issued (platform := sim_platform) (sim_configured sim_503) sim_form
         World_loaded = [sim_request] /\
  remote (sim_configured sim_503) sim_request = sim_503 /\
  fst (sim_handle (sim_configured sim_503) sim_form World_loaded)
    = Ok {| PAYLOAD := Error (HTTPError 503);
            STATUS_STR := 500;
            HEADERS := {[ CONTENT_TYPE := TEXT_PLAIN ]} |}.
Proof.
  split; [exact sim_issued_503|]. split; [reflexivity|].
  vm_compute. reflexivity.
Qed.

(** C2, at a form that holds the credential and nothing else: the
    [KeyError] of the first missing field leaves the handler; no response
    is returned. *)
Theorem missing_field_leaves_handler :
  fst (sim_handle (sim_configured sim_201) sim_form_creds_only World_loaded)
    = Raise (KeyError SIGHTING_VALUE).
Proof. vm_compute. reflexivity. Qed.

(** C5, at an accounts file with the stanza "default" only, and at one
    whose account has no URL field: [get_url] raises. *)
Theorem get_url_raises :
  get_url (Some [("default", ∅)]) = Raise (UnboundLocalError "account_name") /\
  get_url (Some [("default", ∅); ("eiq", ∅)]) = Raise (KeyError URL).
Proof. split; vm_compute; reflexivity. Qed.

(** C10 as stated fails: after one call of the handler the module-level
    dictionary is not the loaded one any more. *)
Theorem handle_changes_SIGHTING_SCHEMA :
  SIGHTING_SCHEMA (snd (sim_handle (sim_configured sim_201) sim_form
                                   World_loaded)) = sim_document /\
  sim_document <> SIGHTING_SCHEMA World_loaded.
Proof.
  split; [vm_compute; reflexivity|].
  intros H. apply (f_equal (getitem_path [DATA_STR; DATA_STR; VALUE])) in H.
  vm_compute in H. discriminate H.
Qed.

Example sim_issued_304 :
  issued (platform := sim_platform) (sim_configured sim_304) sim_form
         World_loaded = [sim_request].
Proof. vm_compute. reflexivity. Qed.

Example sim_issued_timeout :
  issued (platform := sim_platform) (sim_configured sim_timeout) sim_form
         World_loaded = [sim_request].
Proof. vm_compute. reflexivity. Qed.

Ltac evaluated :=
  first [ reflexivity
        | vm_compute; reflexivity
        | discriminate
        | exact SIGHTING_SCHEMA_loaded_has_fields
        | apply (bool_decide_unpack _); vm_compute; exact I ].

Lemma missing_credential_answered_401_witness :
  outbound (snd (sim_handle (sim_configured sim_201) sim_form_no_creds
                            World_loaded))
    = outbound World_loaded /\
  fst (sim_handle (sim_configured sim_201) sim_form_no_creds World_loaded)
    = Ok {| PAYLOAD := Text CREDS_NOT_FOUND;
            STATUS_STR := 401;
            HEADERS := {[ CONTENT_TYPE := TEXT_PLAIN ]} |}.
Proof.
  destruct (missing_credential_answered_401 (platform := sim_platform)
              (sim_configured sim_201) sim_form_no_creds World_loaded)
    as [Hout Hanswer].
  - left. evaluated.
  - split; [exact Hout|].
    apply (Hanswer (Some "https://tip.example/api/v1")). evaluated.
Defined.

Lemma built_document_times_witness :
  getitem_path [DATA_STR; DATA_STR; TIMESTAMP_STR]
    (SIGHTING_SCHEMA (snd (sim_handle (sim_configured sim_201) sim_form
                                      World_loaded)))
    = Ok (JStr (strftime sim_now TIME_FORMAT)) /\
  getitem_path [DATA_STR; META; INGEST_TIME]
    (SIGHTING_SCHEMA (snd (sim_handle (sim_configured sim_201) sim_form
                                      World_loaded)))
    = Ok (JStr (strftime sim_now TIME_FORMAT)) /\
  getitem_path [DATA_STR; DATA_STR; SECURITY_CONTROL; TIME; START_TIME]
    (SIGHTING_SCHEMA (snd (sim_handle (sim_configured sim_201) sim_form
                                      World_loaded)))
    = Ok (JStr (strftime (mk_datetime 2024 3 9 0 0 0 0) TIME_FORMAT)).
Proof.
  apply (built_document_times (platform := sim_platform)
           (sim_configured sim_201) sim_form World_loaded sim_now
           (Some "https://tip.example/api/v1") "k3y"
           "198.51.100.7" "seen in proxy logs" "high" "Splunk sighting"
           "malware,c2" "ip"); evaluated.
Defined.

Lemma tags_pass_through_witness :
  getitem_path [DATA_STR; META; TAGS]
    (SIGHTING_SCHEMA (snd (sim_handle (sim_configured sim_201) sim_form
                                      World_loaded)))
    = Ok (JArr [JStr "malware,c2"]).
Proof.
  apply (tags_pass_through (platform := sim_platform)
           (sim_configured sim_201) sim_form World_loaded
           (Some "https://tip.example/api/v1") "k3y"
           "198.51.100.7" "seen in proxy logs" "high" "Splunk sighting"
           "malware,c2" "ip"); evaluated.
Defined.


Lemma created_reply_confirmed_witness :
  exists base,
    get_url (accounts_conf (sim_configured sim_201)) = Ok (Some base) /\
    fst (sim_handle (sim_configured sim_201) sim_form World_loaded)
      = Ok {| PAYLOAD := Text ("Sighting created: " ++ base ++ "/" ++ "abc123");
              STATUS_STR := 201;
              HEADERS := {[ CONTENT_TYPE := TEXT_PLAIN ]} |}.
Proof.
  apply (created_reply_confirmed (platform := sim_platform)
           (sim_configured sim_201) sim_form World_loaded sim_request
           (mk_HttpResponse 201 (sim_dumps sim_created)) sim_created "abc123").
  - rewrite sim_issued_201. apply list_elem_of_here.
  - evaluated.
  - simpl. lia.
  - evaluated.
  - evaluated.
Defined.

Lemma outbound_request_shape_witness :
  issued (platform := sim_platform) (sim_configured sim_201) sim_form
         World_loaded = [sim_request] /\
  exists base api_key fields,
    get_url (accounts_conf (sim_configured sim_201)) = Ok (Some base) /\
    parse_form_data (form sim_form) !! CREDS = Some api_key /\
    get_proxy (settings_conf (sim_configured sim_201)) = Ok (Some fields) /\
    req_method sim_request = "post" /\
    req_url sim_request = base ++ "/entities" /\
    req_headers sim_request = {[ AUTHORIZATION := "Bearer " ++ api_key ]} /\
    req_data sim_request
      = sim_dumps (SIGHTING_SCHEMA
                     (snd (sim_handle (sim_configured sim_201) sim_form
                                      World_loaded))) /\
    req_verify sim_request = true /\
    req_timeout sim_request = 50%Z /\
    (req_proxies sim_request <> None <->
     fields !! "proxy_enabled" = Some "1") /\
    (forall uri, req_proxies sim_request = Some uri ->
       exists sent,
         proxy_of_request (sim_configured sim_201)
                          (parse_form_data (form sim_form)) = Some sent /\
         sim_format_proxy_uri sent = Ok uri).
Proof.
  apply (outbound_request_shape (platform := sim_platform)
           (sim_configured sim_201) sim_form World_loaded sim_request).
  rewrite sim_issued_201. apply list_elem_of_here.
Defined.

Lemma document_sent_ignores_history_witness :
  (exists s,
     SIGHTING_SCHEMA (snd (sim_handle (sim_configured sim_503) sim_form
                                      World_loaded))
     = with_fields s (SIGHTING_SCHEMA World_loaded)) /\
  forall env in_dict r,
    r ∈ issued (platform := sim_platform) env in_dict
               (snd (sim_handle (sim_configured sim_503) sim_form
                                World_loaded)) ->
    exists value description confidence title tags type,
      parse_form_data (form in_dict) !! SIGHTING_VALUE = Some value /\
      parse_form_data (form in_dict) !! SIGHTING_DESC = Some description /\
      parse_form_data (form in_dict) !! CONFIDENCE_LEVEL = Some confidence /\
      parse_form_data (form in_dict) !! SIGHTING_TITLE = Some title /\
      parse_form_data (form in_dict) !! SIGHTING_TAGS = Some tags /\
      parse_form_data (form in_dict) !! SIGHTING_TYPE = Some type /\
      req_data r
        = sim_dumps
            (with_fields (filled value description confidence title tags type
                                 (date_of (clock env 2)) (clock env 3))
                         (SIGHTING_SCHEMA World_loaded)) /\
      SIGHTING_SCHEMA
        (snd (handle (platform := sim_platform) env in_dict
                (snd (sim_handle (sim_configured sim_503) sim_form
                                 World_loaded))))
        = with_fields (filled value description confidence title tags type
                              (date_of (clock env 2)) (clock env 3))
                      (SIGHTING_SCHEMA World_loaded).
Proof.
  apply (document_sent_ignores_history (platform := sim_platform)
           World_loaded
           (snd (sim_handle (sim_configured sim_503) sim_form World_loaded))).
  - evaluated.
  - apply reachable_handle. apply reachable_loaded.
Defined.

Lemma other_status_handed_on_witness :
  fst (sim_handle (sim_configured sim_304) sim_form World_loaded)
    = Ok (create_response 304 (Text COULD_NOT_CREATE_SIGHTING)).
Proof.
  apply (other_status_handed_on (platform := sim_platform)
           (sim_configured sim_304) sim_form World_loaded sim_request
           (mk_HttpResponse 304 "")).
  - rewrite sim_issued_304. apply list_elem_of_here.
  - evaluated.
  - simpl. lia.
  - evaluated.
Defined.

Lemma parse_form_data_last_witness :
  parse_form_data ([(SIGHTING_TAGS, "first")]
                     ++ (SIGHTING_TAGS, "second") :: [(CREDS, "k3y")])%list
    !! SIGHTING_TAGS
  = Some "second".
Proof.
  apply (parse_form_data_last [(SIGHTING_TAGS, "first")] [(CREDS, "k3y")]
           SIGHTING_TAGS "second").
  evaluated.
Defined.

Lemma get_url_last_account_witness :
  get_url (Some ([("default", ∅)]
                   ++ ("eiq", {[ URL := "https://tip.example/api/v1" ]})
                   :: [])%list)
  = match ({[ URL := "https://tip.example/api/v1" ]} : gmap string string)
          !! URL with
    | Some url => Ok (Some url)
    | None => Raise (KeyError URL)
    end.
Proof.
  apply (get_url_last_account [("default", ∅)] [] "eiq"
           {[ URL := "https://tip.example/api/v1" ]}).
  - evaluated.
  - evaluated.
  - constructor.
Defined.

Lemma error_status_answered_500_witness :
  fst (sim_handle (sim_configured sim_503) sim_form World_loaded)
    = Ok (create_response 500 (Error (HTTPError 503))).
Proof.
  apply (error_status_answered_500 (platform := sim_platform)
           (sim_configured sim_503) sim_form World_loaded sim_request
           (mk_HttpResponse 503 "Service Unavailable")).
  - rewrite sim_issued_503. apply list_elem_of_here.
  - evaluated.
  - simpl. lia.
Defined.

Lemma get_url_without_account_witness :
  get_url (Some [("default", ∅)]) = Raise (UnboundLocalError "account_name").
Proof.
  apply (get_url_without_account [("default", ∅)]).
  repeat constructor.
Defined.

(** * Further properties of the handler *)

(** ** The form and the configuration files *)

Lemma parse_form_data_snoc (form_data : list (string * string)) key value :
  parse_form_data (form_data ++ [(key, value)])
  = <[key := value]> (parse_form_data form_data).
Proof. unfold parse_form_data. now rewrite foldl_app. Qed.

(** The parsed form has the keys of the pairs of the form, and no other. *)
Theorem parse_form_data_keys (form_data : list (string * string)) key :
  is_Some (parse_form_data form_data !! key) <-> key ∈ map fst form_data.
Proof.
  induction form_data as [|[key' value] form_data IH] using rev_ind.
  - simpl. unfold parse_form_data. simpl. rewrite lookup_empty.
    split; [intros [v Hv]; discriminate|intros H; inversion H].
  - rewrite parse_form_data_snoc, map_app, elem_of_app. simpl.
    destruct (decide (key' = key)) as [->|Hne].
    + rewrite lookup_insert_eq. split; [|eauto].
      intros _. right. apply list_elem_of_here.
    + rewrite lookup_insert_ne by exact Hne. rewrite IH.
      split; [now left|]. intros [H|H]; [exact H|].
      apply list_elem_of_singleton in H. congruence.
Qed.

(** [get_proxy] returns the fields of the first stanza named [PROXY], and
    [None] exactly when the file has no such stanza; it never raises. *)
Theorem get_proxy_stanza (localsettingsconf : ConfFile) :
  match get_proxy (Some localsettingsconf) with
  | Ok (Some fields) =>
      exists before after : ConfFile,
        localsettingsconf = (before ++ (PROXY, fields) :: after)%list /\
        PROXY ∉ map fst before
  | Ok None => PROXY ∉ map fst localsettingsconf
  | Raise _ => False
  end.
Proof.
  simpl. induction localsettingsconf as [|[stanza fields] rest IH]; simpl.
  - intros H. inversion H.
  - destruct (String.eqb_spec stanza PROXY) as [->|Hne].
    + exists [], rest. split; [reflexivity|]. intros H. inversion H.
    + destruct (get_proxy_loop rest) as [found|].
      * destruct IH as (before & after & -> & Hnot).
        exists ((stanza, fields) :: before), after. split; [reflexivity|].
        simpl. apply not_elem_of_cons. split; [congruence|exact Hnot].
      * apply not_elem_of_cons. split; [congruence|exact IH].
Qed.

(** ** The statuses as [str] renders them *)

(** Among the statuses from 400 to 599, those whose decimal rendering
    begins with the digit 5 are the ones from 500 on. *)
Lemma startswith_5_range (code : Z) :
  (400 <= code < 600)%Z ->
  startswith (py_str_int code) "5" = (500 <=? code)%Z.
Proof.
  intros Hcode.
  assert (Hall : forallb (fun k =>
                    Bool.eqb (startswith (py_str_int (400 + Z.of_nat k)) "5")
                             (500 <=? 400 + Z.of_nat k)%Z)
                         (seq 0 200) = true) by (vm_compute; reflexivity).
  rewrite forallb_forall in Hall.
  specialize (Hall (Z.to_nat (code - 400))).
  replace (400 + Z.of_nat (Z.to_nat (code - 400)))%Z with code in Hall by lia.
  apply Bool.eqb_prop, Hall, in_seq. lia.
Qed.

(** What [payload.get("proxy_pass") if payload.get("proxy_pass") else ""]
    evaluates to. *)
Lemma proxy_pass_default (o : option string) :
  (if truthy o then py_str_opt o else "") = default "" o.
Proof.
  destruct o as [s|]; simpl; [|reflexivity].
  destruct (String.eqb_spec s ""); simpl; congruence.
Qed.

Ltac run_handler :=
  cbv beta iota delta
      [ret raise lift bind logger try_except local negb fst snd].

Section Coverage.

Context {platform : Platform}.
Variable env : Env.

Ltac sent_start H request :=
  unfold handle_submit, try_except, bind; cbn [ret];
  rewrite (send_request_issued env _ _ _ _ _ H);
  match goal with
  | |- context [remote _ ?r] => change r with request
  end.

(** A call of [requests.request] made by the handler is made by
    [handle_submit], in a world that the handler has entered and in which
    only the dictionary has changed since. *)
Lemma handle_sent in_dict w r :
  r ∈ issued env in_dict w ->
  exists base api_key proxy proxy_settings w2,
    proxy_settings_of proxy = Ok proxy_settings /\
    r = request_for base api_key proxy_settings (SIGHTING_SCHEMA w2) /\
    utcnow_calls w2 = S (S (utcnow_calls w)) /\
    outbound w2 = outbound w /\
    log_records w2 = (log_records w ++ [(INFO, REQUEST_RECEIVED)])%list /\
    handle env in_dict w
      = handle_submit env (Some base) api_key proxy REF_SIGHTING_SCHEMA w2.
Proof.
  intros Hr.
  destruct (handle_issued env in_dict w)
    as [Hnone | (base & w2 & ps & _ & _ & Hfill & Hproxy & Heq & Hone & _)].
  - rewrite Hnone in Hr. inversion Hr.
  - rewrite Hone in Hr. apply list_elem_of_singleton in Hr.
    pose proof (handle_fill_keeps_trace (parse_form_data (form in_dict))
                  (date_of (clock env (utcnow_calls w)))
                  (clock env (S (utcnow_calls w))) (entered w))
      as (Hclock & Hout & Hlog).
    rewrite Hfill in Hclock, Hout, Hlog. simpl in Hclock, Hout, Hlog.
    exists base, (parse_form_data (form in_dict) !! CREDS),
           (proxy_of_request env (parse_form_data (form in_dict))), ps, w2.
    repeat split; assumption.
Qed.

(** ** What is logged and answered when the request has been sent *)

Lemma submit_error_status_run base api_key proxy w proxy_settings response :
  proxy_settings_of proxy = Ok proxy_settings ->
  remote env (request_for base api_key proxy_settings (SIGHTING_SCHEMA w))
    = Responds response ->
  (400 <= status_code response < 600)%Z ->
  snd (handle_submit env (Some base) api_key proxy REF_SIGHTING_SCHEMA w)
  = mk_World (SIGHTING_SCHEMA w) (utcnow_calls w)
      (outbound w
         ++ [request_for base api_key proxy_settings (SIGHTING_SCHEMA w)])
      (log_records w
         ++ [(error_level (status_code response),
              API_ERROR (HTTPError (status_code response)));
             (error_level (status_code response),
              EVENTS_RESPONSE_ERROR_CODE (status_code response)
                                         (py_str_bytes (content response)))]).
Proof.
  intros H Hremote Hcode.
  set (request := request_for base api_key proxy_settings (SIGHTING_SCHEMA w)) in *.
  sent_start H request. rewrite Hremote.
  unfold raise_for_status.
  replace ((400 <=? status_code response) && (status_code response <? 600))%Z
    with true by (symmetry; apply andb_true_iff; split; lia).
  unfold send_request_except, local, bind. cbn [ret].
  rewrite (startswith_5_range _ Hcode). unfold error_level.
  destruct (500 <=? status_code response)%Z; run_handler; simpl;
    rewrite <- app_assoc; reflexivity.
Qed.

(** A status from 400 to 599 is logged twice by [send_request], with the
    error and with the status and [str(response.content)], the body of the
    reply as Python writes a bytes object: at the level critical from 500
    on, at the level error below. *)
Theorem error_status_logged in_dict w r response :
  r ∈ issued env in_dict w ->
  remote env r = Responds response ->
  (400 <= status_code response < 600)%Z ->
  let level := if (500 <=? status_code response)%Z then CRITICAL else ERROR in
  log_records (snd (handle env in_dict w))
  = (log_records w
       ++ [(INFO, REQUEST_RECEIVED);
           (level, API_ERROR (HTTPError (status_code response)));
           (level, EVENTS_RESPONSE_ERROR_CODE
                     (status_code response)
                     (py_str_bytes (content response)))])%list.
Proof.
  intros Hr Hremote Hcode level.
  destruct (handle_sent _ _ _ Hr)
    as (base & key & proxy & ps & w2 & Hproxy & -> & _ & _ & Hlog & ->).
  rewrite (submit_error_status_run _ _ _ _ _ _ Hproxy Hremote Hcode).
  simpl. rewrite Hlog, <- app_assoc. reflexivity.
Qed.

Lemma submit_fails_run base api_key proxy w proxy_settings err :
  proxy_settings_of proxy = Ok proxy_settings ->
  remote env (request_for base api_key proxy_settings (SIGHTING_SCHEMA w))
    = Fails err ->
  handle_submit env (Some base) api_key proxy REF_SIGHTING_SCHEMA w
  = match
      send_request_except None err
        (with_request
           (request_for base api_key proxy_settings (SIGHTING_SCHEMA w)) w)
    with
    | (Ok response, w') =>
        handle_submit env (Some base) api_key proxy REF_SIGHTING_SCHEMA w
    | (Raise e, w') => (Ok (create_response 500 (Error e)), w')
    end.
Proof.
  intros H Hremote.
  set (request := request_for base api_key proxy_settings (SIGHTING_SCHEMA w)) in *.
  destruct (send_request_except_world None err (with_request request w))
    as [_ [e He]].
  destruct (send_request_except None err (with_request request w))
    as [res w'] eqn:Hexc.
  simpl in He. subst res.
  sent_start H request. rewrite Hremote, Hexc. reflexivity.
Qed.

(** An exception of [requests.request] never leaves the handler: it is
    answered with status 500, and the body is the exception that leaves
    [send_request], which is the one raised unless the [except] clause that
    takes it reads the unassigned [response]. *)
Theorem transport_failure_answered_500 in_dict w r err :
  r ∈ issued env in_dict w ->
  remote env r = Fails err ->
  fst (handle env in_dict w)
    = Ok (create_response 500 (Error (raised_by_send_request err))).
Proof.
  intros Hr Hremote.
  destruct (handle_sent _ _ _ Hr)
    as (base & key & proxy & ps & w2 & Hproxy & -> & _ & _ & _ & ->).
  rewrite (submit_fails_run _ _ _ _ _ _ Hproxy Hremote).
  destruct err; reflexivity.
Qed.

(** When [requests.request] raises [ConnectionError] or [Timeout], the
    handler logs the error once and answers with status 500 and that
    exception as body. *)
Theorem connection_failure_answered_500 in_dict w r err :
  r ∈ issued env in_dict w ->
  remote env r = Fails err ->
  err = ConnectionError \/ err = Timeout ->
  fst (handle env in_dict w) = Ok (create_response 500 (Error err)) /\
  log_records (snd (handle env in_dict w))
  = (log_records w ++ [(INFO, REQUEST_RECEIVED); (ERROR, API_ERROR err)])%list.
Proof.
  intros Hr Hremote Herr.
  destruct (handle_sent _ _ _ Hr)
    as (base & key & proxy & ps & w2 & Hproxy & -> & _ & _ & Hlog & ->).
  rewrite (submit_fails_run _ _ _ _ _ _ Hproxy Hremote).
  destruct Herr as [-> | ->]; simpl; rewrite Hlog, <- app_assoc;
    split; reflexivity.
Qed.

(** When [requests.request] raises another [RequestException] (an invalid
    URL, too many redirects), the [except] clause of [send_request] reads the
    local variable [response], which was never assigned: the handler answers
    with status 500 and an [UnboundLocalError] as body, not with the
    exception of [requests]. *)
Theorem request_exception_answered_unbound in_dict w r :
  r ∈ issued env in_dict w ->
  remote env r = Fails RequestException ->
  fst (handle env in_dict w)
    = Ok (create_response 500 (Error (UnboundLocalError "response"))) /\
  log_records (snd (handle env in_dict w))
  = (log_records w
       ++ [(INFO, REQUEST_RECEIVED); (ERROR, API_ERROR RequestException)])%list.
Proof.
  intros Hr Hremote.
  destruct (handle_sent _ _ _ Hr)
    as (base & key & proxy & ps & w2 & Hproxy & -> & _ & _ & Hlog & ->).
  rewrite (submit_fails_run _ _ _ _ _ _ Hproxy Hremote).
  simpl. rewrite Hlog, <- app_assoc. split; reflexivity.
Qed.

(** A reply with a status from 200 to 299 whose body is not JSON, or holds
    no [data.id], makes the exception of [json.loads] or of the subscription
    leave the handler: lines 298 and 299 are outside the [try]. *)
Theorem reply_without_id_leaves_handler in_dict w r response e :
  r ∈ issued env in_dict w ->
  remote env r = Responds response ->
  (200 <= status_code response <= 299)%Z ->
  match json_loads (content response) with
  | Some parsed => getitem_path [DATA_STR; "id"] parsed
  | None => Raise JSONDecodeError
  end = Raise e ->
  fst (handle env in_dict w) = Raise e.
Proof.
  intros Hr Hremote Hcode Hbody.
  destruct (handle_sent _ _ _ Hr)
    as (base & key & proxy & ps & w2 & Hproxy & -> & _ & _ & _ & ->).
  set (request := request_for base key ps (SIGHTING_SCHEMA w2)) in *.
  sent_start Hproxy request. rewrite Hremote.
  unfold raise_for_status.
  replace ((400 <=? status_code response) && (status_code response <? 600))%Z
    with false by (symmetry; apply andb_false_iff; lia).
  run_handler. rewrite (startswith_2xx _ Hcode).
  destruct (json_loads (content response)) as [parsed|].
  - rewrite Hbody. reflexivity.
  - injection Hbody as <-. reflexivity.
Qed.

(** ** What is handed to the proxy formatter *)

Lemma proxy_of_request_enabled payload fields :
  get_proxy (settings_conf env) = Ok (Some fields) ->
  fields !! "proxy_enabled" = Some "1" ->
  proxy_of_request env payload
  = Some (<[PROXY_PASSWORD := default "" (payload !! "proxy_pass")]> fields).
Proof.
  intros Hproxy Henabled. unfold proxy_of_request, proxy_stanza.
  unfold get_proxy in Hproxy.
  destruct (settings_conf env) as [conf|]; [|discriminate].
  injection Hproxy as ->.
  destruct (bool_decide (fields = ∅)) eqn:Hempty.
  - apply bool_decide_eq_true in Hempty. subst fields.
    rewrite lookup_empty in Henabled. discriminate.
  - now rewrite proxy_pass_default.
Qed.

(** The proxies of a request are what [format_proxy_uri] makes of the proxy
    stanza of the settings file in which the proxy password is the value of
    [proxy_pass] in the form, or the empty string when the form has none. *)
Theorem proxy_password_from_form in_dict w r uri :
  r ∈ issued env in_dict w ->
  req_proxies r = Some uri ->
  exists fields,
    get_proxy (settings_conf env) = Ok (Some fields) /\
    fields !! "proxy_enabled" = Some "1" /\
    format_proxy_uri
      (<[PROXY_PASSWORD :=
           default "" (parse_form_data (form in_dict) !! "proxy_pass")]> fields)
    = Ok uri.
Proof.
  intros Hr Huri.
  destruct (handle_issued env in_dict w)
    as [Hnone | (base & w2 & ps & _ & _ & _ & Hproxy & _ & Hone & _)].
  { rewrite Hnone in Hr. inversion Hr. }
  rewrite Hone in Hr. apply list_elem_of_singleton in Hr. subst r.
  simpl in Huri. subst ps.
  unfold proxy_settings_of in Hproxy.
  destruct (proxy_of_request env (parse_form_data (form in_dict)))
    as [sent|] eqn:Hsent; [|discriminate].
  destruct (bool_decide (sent !! "proxy_enabled" = Some "1")) eqn:Hon;
    [|discriminate].
  apply bool_decide_eq_true in Hon.
  destruct (format_proxy_uri sent) as [uri'|] eqn:Hformat; [|discriminate].
  injection Hproxy as ->.
  unfold proxy_of_request, proxy_stanza in Hsent.
  destruct (settings_conf env) as [conf|] eqn:Hconf; [|discriminate].
  destruct (get_proxy_loop conf) as [fields|] eqn:Hloop; [|discriminate].
  exists fields. unfold get_proxy. rewrite Hloop.
  destruct (bool_decide (fields = ∅)) eqn:Hempty.
  - injection Hsent as <-. apply bool_decide_eq_true in Hempty. subst fields.
    rewrite lookup_empty in Hon. discriminate.
  - injection Hsent as <-. rewrite proxy_pass_default in Hon, Hformat.
    rewrite lookup_insert_ne in Hon by discriminate.
    repeat split; assumption.
Qed.

(** When the proxy is switched on and [format_proxy_uri] raises, no call of
    [requests.request] is made; a request with a credential and the six
    fields is answered with status 500 and the exception of the formatter,
    which is raised inside the [try] of the handler. *)
Theorem proxy_uri_failure_answered_500 in_dict w fields e :
  let payload := parse_form_data (form in_dict) in
  get_proxy (settings_conf env) = Ok (Some fields) ->
  fields !! "proxy_enabled" = Some "1" ->
  format_proxy_uri
    (<[PROXY_PASSWORD := default "" (payload !! "proxy_pass")]> fields)
  = Raise e ->
  outbound (snd (handle env in_dict w)) = outbound w /\
  forall base key value description confidence title tags type,
    has_fields (SIGHTING_SCHEMA w) ->
    get_url (accounts_conf env) = Ok (Some base) ->
    payload !! CREDS = Some key -> key <> "" ->
    payload !! SIGHTING_VALUE = Some value ->
    payload !! SIGHTING_DESC = Some description ->
    payload !! CONFIDENCE_LEVEL = Some confidence ->
    payload !! SIGHTING_TITLE = Some title ->
    payload !! SIGHTING_TAGS = Some tags ->
    payload !! SIGHTING_TYPE = Some type ->
    fst (handle env in_dict w) = Ok (create_response 500 (Error e)).
Proof.
  intros payload Hproxy Henabled Hformat.
  assert (Hraise : proxy_settings_of (proxy_of_request env payload) = Raise e).
  { rewrite (proxy_of_request_enabled payload fields Hproxy Henabled).
    unfold proxy_settings_of.
    rewrite lookup_insert_ne by discriminate.
    rewrite (bool_decide_eq_true_2 _ Henabled), Hformat. reflexivity. }
  split.
  - rewrite handle_outbound.
    destruct (handle_issued env in_dict w)
      as [-> | (base & w2 & ps & _ & _ & _ & Hok & _)];
      [apply app_nil_r|].
    fold payload in Hok. rewrite Hraise in Hok. discriminate.
  - intros base key value description confidence title tags type
           Hfields Hurl Hkey Hne Hv Hd Hc Ht Hg Hy.
    rewrite (handle_filled env _ _ _ _ _ _ _ _ _ _
               Hfields Hurl Hkey Hne Hv Hd Hc Ht Hg Hy).
    fold payload.
    now rewrite (submit_unissued env base (Some key) _ _ e Hraise).
Qed.

(** ** The way through the handler that sends the request *)

(** With a base URL, a credential, the six fields and a proxy stanza, the
    handler makes exactly one call of [requests.request], unless the proxy
    is switched on and [format_proxy_uri] raises: it posts the module-level
    dictionary with its nine fields assigned, through the proxies that the
    formatter gives when [proxy_enabled] is "1", and through none
    otherwise. *)
Theorem complete_request_sent in_dict w base key fields proxy_settings
        value description confidence title tags type :
  let payload := parse_form_data (form in_dict) in
  let sent :=
    <[PROXY_PASSWORD := default "" (payload !! "proxy_pass")]> fields in
  has_fields (SIGHTING_SCHEMA w) ->
  get_url (accounts_conf env) = Ok (Some base) ->
  payload !! CREDS = Some key -> key <> "" ->
  payload !! SIGHTING_VALUE = Some value ->
  payload !! SIGHTING_DESC = Some description ->
  payload !! CONFIDENCE_LEVEL = Some confidence ->
  payload !! SIGHTING_TITLE = Some title ->
  payload !! SIGHTING_TAGS = Some tags ->
  payload !! SIGHTING_TYPE = Some type ->
  get_proxy (settings_conf env) = Ok (Some fields) ->
  match proxy_settings with
  | Some uri =>
      fields !! "proxy_enabled" = Some "1" /\ format_proxy_uri sent = Ok uri
  | None => fields !! "proxy_enabled" <> Some "1"
  end ->
  issued env in_dict w
  = [ {| req_method := "post";
         req_url := base ++ "/entities";
         req_headers := {[ AUTHORIZATION := "Bearer " ++ key ]};
         req_data :=
           json_dumps
             (with_fields
                (filled value description confidence title tags type
                        (date_of (clock env (utcnow_calls w)))
                        (clock env (S (utcnow_calls w))))
                (SIGHTING_SCHEMA w));
         req_verify := true;
         req_timeout := 50;
         req_proxies := proxy_settings |} ].
Proof.
  intros payload sent Hfields Hurl Hkey Hne Hv Hd Hc Ht Hg Hy Hproxy Hps.
  assert (Hok : proxy_settings_of (proxy_of_request env payload)
                = Ok proxy_settings).
  { destruct proxy_settings as [uri|].
    - destruct Hps as [Hon Hformat].
      rewrite (proxy_of_request_enabled payload fields Hproxy Hon).
      unfold proxy_settings_of.
      rewrite lookup_insert_ne by discriminate.
      rewrite (bool_decide_eq_true_2 _ Hon). fold sent.
      now rewrite Hformat.
    - unfold proxy_of_request, proxy_stanza. unfold get_proxy in Hproxy.
      destruct (settings_conf env); [|discriminate].
      injection Hproxy as ->. unfold proxy_settings_of.
      destruct (bool_decide (fields = ∅)).
      + now rewrite (bool_decide_eq_false_2 _ Hps).
      + rewrite lookup_insert_ne by discriminate.
        now rewrite (bool_decide_eq_false_2 _ Hps). }
  unfold issued.
  rewrite (handle_filled env _ _ _ _ _ _ _ _ _ _
             Hfields Hurl Hkey Hne Hv Hd Hc Ht Hg Hy).
  fold payload.
  match goal with
  | |- context [handle_submit env _ _ _ _ ?w2] =>
      pose proof (submit_issued_world env base (Some key) _ w2 _ Hok)
        as (_ & _ & Hsent)
  end.
  rewrite Hsent. simpl. now rewrite drop_app_length.
Qed.

(** ** The ways through the handler that send nothing *)

(** Without an accounts file [get_url] returns [None]; no call of
    [requests.request] is made, and a request with a credential and the six
    fields is answered with status 500: [url + "/entities"] raises
    [TypeError] inside the [try] of the handler. *)
Theorem absent_accounts_answered_500 in_dict w :
  let payload := parse_form_data (form in_dict) in
  accounts_conf env = None ->
  outbound (snd (handle env in_dict w)) = outbound w /\
  forall key value description confidence title tags type,
    has_fields (SIGHTING_SCHEMA w) ->
    payload !! CREDS = Some key -> key <> "" ->
    payload !! SIGHTING_VALUE = Some value ->
    payload !! SIGHTING_DESC = Some description ->
    payload !! CONFIDENCE_LEVEL = Some confidence ->
    payload !! SIGHTING_TITLE = Some title ->
    payload !! SIGHTING_TAGS = Some tags ->
    payload !! SIGHTING_TYPE = Some type ->
    fst (handle env in_dict w)
      = Ok (create_response 500 (Error (TypeError "+"))).
Proof.
  intros payload Habsent.
  assert (Hurl : get_url (accounts_conf env) = Ok None)
    by now rewrite Habsent.
  split.
  - rewrite handle_outbound.
    destruct (handle_issued env in_dict w)
      as [-> | (base & w2 & ps & Hbase & _)];
      [apply app_nil_r|].
    rewrite Hurl in Hbase. discriminate.
  - intros key value description confidence title tags type
           Hfields Hkey Hne Hv Hd Hc Ht Hg Hy.
    rewrite (handle_filled env _ _ _ _ _ _ _ _ _ _
               Hfields Hurl Hkey Hne Hv Hd Hc Ht Hg Hy).
    now rewrite submit_no_url.
Qed.

(** With an accounts file that has no account stanza every request, with or
    without a credential, ends in the [UnboundLocalError] of [get_url]: the
    form is not looked at, the clock is not read, nothing is sent and the
    module-level dictionary is left as it is. *)
Theorem handle_without_account_raises in_dict w (localconf : ConfFile) :
  accounts_conf env = Some localconf ->
  Forall (fun item => fst item = "default") localconf ->
  fst (handle env in_dict w) = Raise (UnboundLocalError "account_name") /\
  SIGHTING_SCHEMA (snd (handle env in_dict w)) = SIGHTING_SCHEMA w /\
  utcnow_calls (snd (handle env in_dict w)) = utcnow_calls w /\
  outbound (snd (handle env in_dict w)) = outbound w.
Proof.
  intros Hconf Hall. rewrite handle_eq, Hconf. unfold get_url.
  pose proof (get_url_loop_default localconf None ∅ Hall) as Hname.
  destruct (foldl get_url_step (None, ∅) localconf) as [account_name conf].
  simpl in Hname. subst account_name.
  repeat split; reflexivity.
Qed.

(** A request without a credential leaves the module-level dictionary as it
    is and logs that it was received, nothing else. *)
Theorem missing_credential_leaves_dictionary in_dict w :
  let payload := parse_form_data (form in_dict) in
  payload !! CREDS = None \/ payload !! CREDS = Some "" ->
  SIGHTING_SCHEMA (snd (handle env in_dict w)) = SIGHTING_SCHEMA w /\
  log_records (snd (handle env in_dict w))
  = (log_records w ++ [(INFO, REQUEST_RECEIVED)])%list.
Proof.
  intros payload Hcreds.
  assert (Hfalse : truthy (payload !! CREDS) = false)
    by (destruct Hcreds as [-> | ->]; reflexivity).
  rewrite handle_eq. fold payload. rewrite Hfalse.
  destruct (get_url (accounts_conf env)); split; reflexivity.
Qed.

(** ** A missing field and the module-level dictionary *)

Lemma assign_field f v doc n out lg :
  has_fields doc ->
  assign REF_SIGHTING_SCHEMA (slot_path f) (slot_key f) v
         (mk_World doc n out lg)
  = (Ok tt, mk_World (with_field f v doc) n out lg).
Proof. intros Hdoc. unfold assign. simpl. now rewrite with_field_set. Qed.

Ltac field_step H f :=
  cbv beta iota delta [ret raise];
  rewrite (assign_field f) by (repeat apply with_field_has_fields; exact H);
  cbv beta iota delta [ret raise].

(** The block of the nine assignments makes them in their order up to the
    first one whose key the form lacks, and is left there by a [KeyError];
    the assignments made before stay in the dictionary. *)
Lemma handle_fill_run payload today time doc n out lg :
  has_fields doc ->
  handle_fill payload today time REF_SIGHTING_SCHEMA (mk_World doc n out lg)
  = (match snd (assigned_until payload fill_sequence) with
     | Some key => Raise (KeyError key)
     | None => Ok tt
     end,
     mk_World (with_values (fst (assigned_until payload fill_sequence))
                           (fun f => get_slot f (request_slots payload today time))
                           doc)
              n out lg).
Proof.
  intros Hdoc.
  unfold handle_fill, getitem, bind, fill_sequence, request_slots.
  cbn [assigned_until form_key].
  destruct (payload !! SIGHTING_VALUE) as [value|]; [|reflexivity].
  field_step Hdoc Value.
  destruct (payload !! SIGHTING_DESC) as [description|]; [|reflexivity].
  field_step Hdoc Description. field_step Hdoc Timestamp.
  destruct (payload !! CONFIDENCE_LEVEL) as [confidence|]; [|reflexivity].
  field_step Hdoc Confidence.
  destruct (payload !! SIGHTING_TITLE) as [title|]; [|reflexivity].
  field_step Hdoc Title.
  destruct (payload !! SIGHTING_TAGS) as [tags|]; [|reflexivity].
  field_step Hdoc Tags.
  destruct (payload !! SIGHTING_TYPE) as [type|]; [|reflexivity].
  field_step Hdoc SecurityType. field_step Hdoc StartTime.
  field_step Hdoc IngestTime.
  reflexivity.
Qed.

(** When the form lacks one of the six fields, the assignments stop at the
    first of them in their order. *)
Lemma assigned_until_missing (payload : gmap string string) :
  payload !! SIGHTING_VALUE = None \/ payload !! SIGHTING_DESC = None \/
  payload !! CONFIDENCE_LEVEL = None \/ payload !! SIGHTING_TITLE = None \/
  payload !! SIGHTING_TAGS = None \/ payload !! SIGHTING_TYPE = None ->
  exists key,
    snd (assigned_until payload fill_sequence) = Some key /\
    key ∈ [SIGHTING_VALUE; SIGHTING_DESC; CONFIDENCE_LEVEL; SIGHTING_TITLE;
           SIGHTING_TAGS; SIGHTING_TYPE] /\
    payload !! key = None.
Proof.
  intros Hmissing. unfold fill_sequence. cbn [assigned_until form_key].
  destruct (payload !! SIGHTING_VALUE) eqn:Hv; cycle 1.
  { exists SIGHTING_VALUE. repeat split; [|exact Hv].
    repeat first [apply list_elem_of_here | apply list_elem_of_further]. }
  destruct (payload !! SIGHTING_DESC) eqn:Hd; cycle 1.
  { exists SIGHTING_DESC. repeat split; [|exact Hd].
    repeat first [apply list_elem_of_here | apply list_elem_of_further]. }
  destruct (payload !! CONFIDENCE_LEVEL) eqn:Hc; cycle 1.
  { exists CONFIDENCE_LEVEL. repeat split; [|exact Hc].
    repeat first [apply list_elem_of_here | apply list_elem_of_further]. }
  destruct (payload !! SIGHTING_TITLE) eqn:Ht; cycle 1.
  { exists SIGHTING_TITLE. repeat split; [|exact Ht].
    repeat first [apply list_elem_of_here | apply list_elem_of_further]. }
  destruct (payload !! SIGHTING_TAGS) eqn:Hg; cycle 1.
  { exists SIGHTING_TAGS. repeat split; [|exact Hg].
    repeat first [apply list_elem_of_here | apply list_elem_of_further]. }
  destruct (payload !! SIGHTING_TYPE) eqn:Hy; cycle 1.
  { exists SIGHTING_TYPE. repeat split; [|exact Hy].
    repeat first [apply list_elem_of_here | apply list_elem_of_further]. }
  exfalso. intuition discriminate.
Qed.

(** With a credential in the form and one of the six fields missing, the
    [KeyError] of the first missing field, in the order of the assignments,
    leaves the handler, and no request is sent. *)
Theorem missing_field_raises in_dict w url :
  let payload := parse_form_data (form in_dict) in
  has_fields (SIGHTING_SCHEMA w) ->
  get_url (accounts_conf env) = Ok url ->
  truthy (payload !! CREDS) = true ->
  payload !! SIGHTING_VALUE = None \/ payload !! SIGHTING_DESC = None \/
  payload !! CONFIDENCE_LEVEL = None \/ payload !! SIGHTING_TITLE = None \/
  payload !! SIGHTING_TAGS = None \/ payload !! SIGHTING_TYPE = None ->
  exists key,
    snd (assigned_until payload fill_sequence) = Some key /\
    key ∈ [SIGHTING_VALUE; SIGHTING_DESC; CONFIDENCE_LEVEL; SIGHTING_TITLE;
           SIGHTING_TAGS; SIGHTING_TYPE] /\
    payload !! key = None /\
    fst (handle env in_dict w) = Raise (KeyError key) /\
    outbound (snd (handle env in_dict w)) = outbound w.
Proof.
  intros payload Hfields Hurl Hcreds Hmissing.
  destruct (assigned_until_missing payload Hmissing)
    as (key & Hfirst & Hsix & Hnone).
  exists key. repeat split; try assumption.
  - rewrite handle_eq. fold payload. rewrite Hurl, Hcreds.
    destruct w as [doc n out lg]. unfold bind, entered.
    cbn [SIGHTING_SCHEMA utcnow_calls outbound log_records] in *.
    now rewrite (handle_fill_run _ _ _ _ _ _ _ Hfields), Hfirst.
  - rewrite handle_eq. fold payload. rewrite Hurl, Hcreds.
    destruct w as [doc n out lg]. unfold bind, entered.
    cbn [SIGHTING_SCHEMA utcnow_calls outbound log_records] in *.
    now rewrite (handle_fill_run _ _ _ _ _ _ _ Hfields), Hfirst.
Qed.

(** A request with a credential whose form lacks one of the six fields
    leaves the module-level dictionary changed in part: the fields that the
    handler assigns before it subscribes the missing key hold the values of
    this request, the others are as they were. *)
Theorem missing_field_partial_update in_dict w url key :
  let payload := parse_form_data (form in_dict) in
  let today := date_of (clock env (utcnow_calls w)) in
  let time := clock env (S (utcnow_calls w)) in
  has_fields (SIGHTING_SCHEMA w) ->
  get_url (accounts_conf env) = Ok url ->
  truthy (payload !! CREDS) = true ->
  snd (assigned_until payload fill_sequence) = Some key ->
  fst (handle env in_dict w) = Raise (KeyError key) /\
  SIGHTING_SCHEMA (snd (handle env in_dict w))
  = with_values (fst (assigned_until payload fill_sequence))
                (fun f => get_slot f (request_slots payload today time))
                (SIGHTING_SCHEMA w).
Proof.
  intros payload today time Hfields Hurl Hcreds Hmissing.
  rewrite handle_eq. fold payload. rewrite Hurl, Hcreds.
  destruct w as [doc n out lg]. unfold bind, entered.
  cbn [SIGHTING_SCHEMA utcnow_calls outbound log_records] in *.
  rewrite (handle_fill_run _ _ _ _ _ _ _ Hfields), Hmissing.
  split; reflexivity.
Qed.

(** The start time is midnight of the date of the first reading of the
    clock, the timestamp and the ingest time are the second reading: the
    handler reads the clock twice, and nothing keeps the two readings on the
    same day. *)
Theorem start_time_from_first_reading in_dict w url key
        value description confidence title tags type :
  let payload := parse_form_data (form in_dict) in
  let first := clock env (utcnow_calls w) in
  let second := clock env (S (utcnow_calls w)) in
  has_fields (SIGHTING_SCHEMA w) ->
  get_url (accounts_conf env) = Ok url ->
  payload !! CREDS = Some key -> key <> "" ->
  payload !! SIGHTING_VALUE = Some value ->
  payload !! SIGHTING_DESC = Some description ->
  payload !! CONFIDENCE_LEVEL = Some confidence ->
  payload !! SIGHTING_TITLE = Some title ->
  payload !! SIGHTING_TAGS = Some tags ->
  payload !! SIGHTING_TYPE = Some type ->
  let doc := SIGHTING_SCHEMA (snd (handle env in_dict w)) in
  getitem_path [DATA_STR; DATA_STR; SECURITY_CONTROL; TIME; START_TIME] doc
    = Ok (JStr (strftime
                  (mk_datetime (year first) (month first) (day first) 0 0 0 0)
                  TIME_FORMAT)) /\
  getitem_path [DATA_STR; DATA_STR; TIMESTAMP_STR] doc
    = Ok (JStr (strftime second TIME_FORMAT)) /\
  getitem_path [DATA_STR; META; INGEST_TIME] doc
    = Ok (JStr (strftime second TIME_FORMAT)).
Proof.
  intros payload first second Hfields Hurl Hkey Hne Hv Hd Hc Ht Hg Hy doc.
  subst doc.
  rewrite (handle_filled env _ _ _ _ _ _ _ _ _ _
             Hfields Hurl Hkey Hne Hv Hd Hc Ht Hg Hy).
  fold payload.
  match goal with
  | |- context [handle_submit env ?u ?k ?p ?r ?w2] =>
      destruct (submit_world env u k p w2) as (-> & _)
  end.
  simpl SIGHTING_SCHEMA. fold first second.
  set (s := filled value description confidence title tags type
                   (date_of first) second).
  repeat split;
    [exact (with_fields_get _ StartTime s Hfields)
    |exact (with_fields_get _ Timestamp s Hfields)
    |exact (with_fields_get _ IngestTime s Hfields)].
Qed.

(** ** The responses of the handler *)



End Coverage.

(** ** The further properties in the simulated deployment *)

Ltac sim_sent :=
  match goal with
  | |- ?r ∈ ?sent =>
      let H := fresh in
      assert (H : sent = [r]) by (vm_compute; reflexivity);
      rewrite H; apply list_elem_of_here
  end.

Lemma sim_world_used_has_fields : has_fields (SIGHTING_SCHEMA sim_world_used).
Proof. intros f. destruct f; eexists; vm_compute; reflexivity. Qed.

Lemma error_status_logged_witness :
  log_records (snd (sim_handle (sim_configured sim_404) sim_form World_loaded))
  = [(INFO, REQUEST_RECEIVED);
     (ERROR, API_ERROR (HTTPError 404));
     (ERROR, EVENTS_RESPONSE_ERROR_CODE 404 "b'Not Found'")].
Proof.
  apply (error_status_logged (platform := sim_platform)
           (sim_configured sim_404) sim_form World_loaded sim_request
           (mk_HttpResponse 404 "Not Found")).
  - sim_sent.
  - evaluated.
  - simpl. lia.
Defined.

Lemma connection_failure_answered_500_witness :
  fst (sim_handle (sim_configured sim_connection_error) sim_form World_loaded)
    = Ok (create_response 500 (Error ConnectionError)) /\
  log_records (snd (sim_handle (sim_configured sim_connection_error) sim_form
                               World_loaded))
  = [(INFO, REQUEST_RECEIVED); (ERROR, API_ERROR ConnectionError)].
Proof.
  apply (connection_failure_answered_500 (platform := sim_platform)
           (sim_configured sim_connection_error) sim_form World_loaded
           sim_request ConnectionError).
  - sim_sent.
  - evaluated.
  - left. reflexivity.
Defined.

Lemma request_exception_answered_unbound_witness :
  fst (sim_handle (sim_configured sim_missing_schema) sim_form World_loaded)
    = Ok (create_response 500 (Error (UnboundLocalError "response"))) /\
  log_records (snd (sim_handle (sim_configured sim_missing_schema) sim_form
                               World_loaded))
  = [(INFO, REQUEST_RECEIVED); (ERROR, API_ERROR RequestException)].
Proof.
  apply (request_exception_answered_unbound (platform := sim_platform)
           (sim_configured sim_missing_schema) sim_form World_loaded
           sim_request).
  - sim_sent.
  - evaluated.
Defined.

Lemma reply_without_id_leaves_handler_witness :
  fst (sim_handle (sim_configured sim_200_html) sim_form World_loaded)
    = Raise JSONDecodeError.
Proof.
  apply (reply_without_id_leaves_handler (platform := sim_platform)
           (sim_configured sim_200_html) sim_form World_loaded sim_request
           (mk_HttpResponse 200 "<html></html>") JSONDecodeError).
  - sim_sent.
  - evaluated.
  - simpl. lia.
  - evaluated.
Defined.

Lemma proxy_password_from_form_witness :
  exists fields,
    get_proxy (settings_conf (sim_configured sim_201)) = Ok (Some fields) /\
    fields !! "proxy_enabled" = Some "1" /\
    sim_format_proxy_uri
      (<[PROXY_PASSWORD :=
           default "" (parse_form_data (form sim_form) !! "proxy_pass")]> fields)
    = Ok {[ "https" := "http://10.0.0.8:3128" ]}.
Proof.
  apply (proxy_password_from_form (platform := sim_platform)
           (sim_configured sim_201) sim_form World_loaded sim_request
           {[ "https" := "http://10.0.0.8:3128" ]}).
  - sim_sent.
  - evaluated.
Defined.

Lemma proxy_uri_failure_answered_500_witness :
  outbound (snd (sim_handle
                   (sim_env (Some sim_accounts) (Some sim_settings_no_host)
                            sim_201)
                   sim_form World_loaded))
    = outbound World_loaded /\
  fst (sim_handle
         (sim_env (Some sim_accounts) (Some sim_settings_no_host) sim_201)
         sim_form World_loaded)
    = Ok (create_response 500 (Error (KeyError "proxy_url"))).
Proof.
  destruct (proxy_uri_failure_answered_500 (platform := sim_platform)
              (sim_env (Some sim_accounts) (Some sim_settings_no_host) sim_201)
              sim_form World_loaded
              {[ "proxy_enabled" := "1"; "proxy_port" := "3128" ]}
              (KeyError "proxy_url"))
    as [Hout Hanswer].
  - evaluated.
  - evaluated.
  - evaluated.
  - split; [exact Hout|].
    apply (Hanswer "https://tip.example/api/v1" "k3y" "198.51.100.7"
                   "seen in proxy logs" "high" "Splunk sighting"
                   "malware,c2" "ip"); evaluated.
Defined.

Lemma absent_accounts_answered_500_witness :
  outbound (snd (sim_handle (sim_env None (Some sim_settings) sim_201)
                            sim_form World_loaded))
    = outbound World_loaded /\
  fst (sim_handle (sim_env None (Some sim_settings) sim_201) sim_form
                  World_loaded)
    = Ok (create_response 500 (Error (TypeError "+"))).
Proof.
  destruct (absent_accounts_answered_500 (platform := sim_platform)
              (sim_env None (Some sim_settings) sim_201) sim_form
              World_loaded)
    as [Hout Hanswer].
  - evaluated.
  - split; [exact Hout|].
    apply (Hanswer "k3y" "198.51.100.7" "seen in proxy logs" "high"
                   "Splunk sighting" "malware,c2" "ip"); evaluated.
Defined.

Lemma handle_without_account_raises_witness :
  fst (sim_handle (sim_env (Some [("default", ∅)]) (Some sim_settings) sim_201)
                  sim_form_no_creds sim_world_used)
    = Raise (UnboundLocalError "account_name") /\
  SIGHTING_SCHEMA
    (snd (sim_handle (sim_env (Some [("default", ∅)]) (Some sim_settings)
                              sim_201)
                     sim_form_no_creds sim_world_used))
    = SIGHTING_SCHEMA sim_world_used /\
  utcnow_calls
    (snd (sim_handle (sim_env (Some [("default", ∅)]) (Some sim_settings)
                              sim_201)
                     sim_form_no_creds sim_world_used))
    = utcnow_calls sim_world_used /\
  outbound
    (snd (sim_handle (sim_env (Some [("default", ∅)]) (Some sim_settings)
                              sim_201)
                     sim_form_no_creds sim_world_used))
    = outbound sim_world_used.
Proof.
  apply (handle_without_account_raises (platform := sim_platform)
           (sim_env (Some [("default", ∅)]) (Some sim_settings) sim_201)
           sim_form_no_creds sim_world_used [("default", ∅)]).
  - reflexivity.
  - repeat constructor.
Defined.

Lemma missing_credential_leaves_dictionary_witness :
  SIGHTING_SCHEMA (snd (sim_handle (sim_configured sim_201) sim_form_no_creds
                                   sim_world_used))
    = SIGHTING_SCHEMA sim_world_used /\
  log_records (snd (sim_handle (sim_configured sim_201) sim_form_no_creds
                               sim_world_used))
    = (log_records sim_world_used ++ [(INFO, REQUEST_RECEIVED)])%list.
Proof.
  apply (missing_credential_leaves_dictionary (platform := sim_platform)
           (sim_configured sim_201) sim_form_no_creds sim_world_used).
  left. evaluated.
Defined.

Lemma missing_field_partial_update_witness :
  fst (sim_handle (sim_configured sim_201) sim_form_no_type sim_world_used)
    = Raise (KeyError SIGHTING_TYPE) /\
  SIGHTING_SCHEMA (snd (sim_handle (sim_configured sim_201) sim_form_no_type
                                   sim_world_used))
    = with_values
        [Value; Description; Timestamp; Confidence; Title; Tags]
        (fun f => get_slot f
                    (request_slots (parse_form_data (form sim_form_no_type))
                                   (date_of sim_now) sim_now))
        (SIGHTING_SCHEMA sim_world_used).
Proof.
  apply (missing_field_partial_update (platform := sim_platform)
           (sim_configured sim_201) sim_form_no_type sim_world_used
           (Some "https://tip.example/api/v1") SIGHTING_TYPE).
  - exact sim_world_used_has_fields.
  - evaluated.
  - evaluated.
  - evaluated.
Defined.

Lemma start_time_from_first_reading_witness :
  getitem_path [DATA_STR; DATA_STR; SECURITY_CONTROL; TIME; START_TIME]
    (SIGHTING_SCHEMA (snd (sim_handle sim_env_midnight sim_form World_loaded)))
    = Ok (JStr "2024-03-09T00:00:00.000000Z") /\
  getitem_path [DATA_STR; DATA_STR; TIMESTAMP_STR]
    (SIGHTING_SCHEMA (snd (sim_handle sim_env_midnight sim_form World_loaded)))
    = Ok (JStr "2024-03-10T00:00:00.000001Z") /\
  getitem_path [DATA_STR; META; INGEST_TIME]
    (SIGHTING_SCHEMA (snd (sim_handle sim_env_midnight sim_form World_loaded)))
    = Ok (JStr "2024-03-10T00:00:00.000001Z").
Proof.
  apply (start_time_from_first_reading (platform := sim_platform)
           sim_env_midnight sim_form World_loaded
           (Some "https://tip.example/api/v1") "k3y"
           "198.51.100.7" "seen in proxy logs" "high" "Splunk sighting"
           "malware,c2" "ip"); evaluated.
Defined.


Lemma complete_request_sent_witness :
  issued (platform := sim_platform) (sim_configured sim_201) sim_form
         World_loaded
  = [ {| req_method := "post";
         req_url := "https://tip.example/api/v1" ++ "/entities";
         req_headers := {[ AUTHORIZATION := "Bearer " ++ "k3y" ]};
         req_data :=
           sim_dumps
             (with_fields
                (filled "198.51.100.7" "seen in proxy logs" "high"
                        "Splunk sighting" "malware,c2" "ip"
                        (date_of sim_now) sim_now)
                (SIGHTING_SCHEMA World_loaded));
         req_verify := true;
         req_timeout := 50;
         req_proxies := Some {[ "https" := "http://10.0.0.8:3128" ]} |} ].
Proof.
  apply (complete_request_sent (platform := sim_platform)
           (sim_configured sim_201) sim_form World_loaded
           "https://tip.example/api/v1" "k3y"
           {[ "proxy_enabled" := "1"; "proxy_url" := "10.0.0.8";
              "proxy_port" := "3128" ]}
           (Some {[ "https" := "http://10.0.0.8:3128" ]})
           "198.51.100.7" "seen in proxy logs" "high" "Splunk sighting"
           "malware,c2" "ip"); try evaluated.
  split; evaluated.
Defined.

Lemma transport_failure_answered_500_witness :
  fst (sim_handle (sim_configured sim_timeout) sim_form World_loaded)
    = Ok (create_response 500 (Error Timeout)).
Proof.
  apply (transport_failure_answered_500 (platform := sim_platform)
           (sim_configured sim_timeout) sim_form World_loaded sim_request
           Timeout).
  - sim_sent.
  - evaluated.
Defined.

Lemma missing_field_raises_witness :
  exists key,
    snd (assigned_until (parse_form_data (form sim_form_no_type))
                        fill_sequence) = Some key /\
    key ∈ [SIGHTING_VALUE; SIGHTING_DESC; CONFIDENCE_LEVEL; SIGHTING_TITLE;
           SIGHTING_TAGS; SIGHTING_TYPE] /\
    parse_form_data (form sim_form_no_type) !! key = None /\
    fst (sim_handle (sim_configured sim_201) sim_form_no_type World_loaded)
      = Raise (KeyError key) /\
    outbound (snd (sim_handle (sim_configured sim_201) sim_form_no_type
                              World_loaded))
      = outbound World_loaded.
Proof.
  apply (missing_field_raises (platform := sim_platform)
           (sim_configured sim_201) sim_form_no_type World_loaded
           (Some "https://tip.example/api/v1")).
  - evaluated.
  - evaluated.
  - evaluated.
  - do 5 right. evaluated.
Defined.

(** ** The claims that the code does not keep, at their failing inputs *)

(** C3, at a form without a credential and an accounts file whose only
    stanza is "default": [get_url], called before the credential is looked
    at, raises; no response with status 401 is returned. *)
Theorem missing_credential_not_answered :
  parse_form_data (form sim_form_no_creds) !! CREDS = None /\
  get_url (Some [("default", ∅)]) = Raise (UnboundLocalError "account_name") /\
  fst (sim_handle (sim_env (Some [("default", ∅)]) (Some sim_settings) sim_201)
                  sim_form_no_creds World_loaded)
    = Raise (UnboundLocalError "account_name").
Proof. repeat split; vm_compute; reflexivity. Qed.

(** C4, at a call during which midnight passes: the timestamp and the
    ingest time are the second reading of the clock, on the tenth of March,
    and the start time is midnight of the ninth, the date of the first
    reading, not midnight of the date of the timestamp. *)
Theorem start_time_not_of_timestamp_date :
  let nowUtc := mk_datetime 2024 3 10 0 0 0 1 in
  let doc :=
    SIGHTING_SCHEMA (snd (sim_handle sim_env_midnight sim_form World_loaded)) in
  clock sim_env_midnight 0 = mk_datetime 2024 3 9 23 59 59 999999 /\
  clock sim_env_midnight 1 = nowUtc /\
  getitem_path [DATA_STR; DATA_STR; TIMESTAMP_STR] doc
    = Ok (JStr (strftime nowUtc TIME_FORMAT)) /\
  getitem_path [DATA_STR; META; INGEST_TIME] doc
    = Ok (JStr (strftime nowUtc TIME_FORMAT)) /\
  getitem_path [DATA_STR; DATA_STR; SECURITY_CONTROL; TIME; START_TIME] doc
    = Ok (JStr "2024-03-09T00:00:00.000000Z") /\
  strftime (mk_datetime (year nowUtc) (month nowUtc) (day nowUtc) 0 0 0 0)
           TIME_FORMAT
    = "2024-03-10T00:00:00.000000Z".
Proof. repeat split; vm_compute; reflexivity. Qed.
